(** * generic-backend: permission model and controller authorization

    A shallow embedding of [utils/permissions.ts] ([findPermissionLevel],
    [canManagePermissions], [canAddUser]), of
    [controllers/booking.controller.ts] and of
    [controllers/events.controller.ts], together with the properties of the
    permission model and of the authorization decisions taken by the
    controllers.

    The controllers await their collaborators (token verification, events
    and bookings services, logger, clock, uuid generator); a controller
    method is embedded as the tree of those calls and run against an
    arbitrary handler.  [canManageEvents], [canManageBooking], the body
    validators and [DateTime.fromISO] are parameters of the controllers. *)

From Stdlib Require Import ZArith Lia Bool List String.
From stdpp Require Import base option list strings gmap.

Local Open Scope Z_scope.
Local Open Scope string_scope.

(** ** Permission model ([models/user.model.ts], [utils/permissions.ts]) *)

Module PermissionModel.

(** A [Permission] is a JavaScript object [{ name, level }].
    [Array.prototype.includes] compares objects by identity, so the
    embedding carries the identity of the object in [ref]; [name] and
    [level] are its two fields.  [level] is a JavaScript number holding an
    integer rank. *)
Record Permission : Type := mkPermission
  { ref : nat;
    name : string;
    level : Z }.

(** [a === b] on two permission objects. *)
Definition same_object (a b : Permission) : bool :=
  Nat.eqb (ref a) (ref b).

(** [permissions.includes(p)]. *)
Definition includes (permissions : list Permission) (p : Permission) : bool :=
  existsb (fun q => same_object q p) permissions.

(** The catalog [Permissions] of [models/user.model.ts]; only the entries
    read by [utils/permissions.ts] appear. *)
Record PermissionsCatalog : Type := mkCatalog
  { ALL : Permission;
    MANAGE_PERMISSIONS : Permission;
    ADD_USER : Permission }.

(** The structural type [{ permissions: Permission[] }]: anything that
    carries a list of permissions. *)
Class WithPermissions (A : Type) : Type :=
  permissions : A -> list Permission.

(** The structural type [{ bdeUUID: string, permissions: Permission[] }]. *)
Record Subject : Type := mkSubject
  { bdeUUID : string;
    subject_permissions : list Permission }.

#[export] Instance Subject_permissions : WithPermissions Subject :=
  subject_permissions.

(** A bare [{ permissions }] object. *)
#[export] Instance list_permissions : WithPermissions (list Permission) :=
  fun l => l.

(** [Math.max(x, ...xs)] on integers. *)
Definition Math_max (x : Z) (xs : list Z) : Z :=
  fold_left Z.max xs x.

(** [Math.max(0, ... user.permissions.map(p => p.level))] *)
Definition findPermissionLevel {A} `{WithPermissions A} (user : A) : Z :=
  Math_max 0 (map level (permissions user)).

Section WithCatalog.

Variable Permissions : PermissionsCatalog.

Definition canManagePermissions (source target : Subject) : bool :=
  if includes (permissions source) (ALL Permissions)
     && negb (includes (permissions target) (ALL Permissions))
  then true
  else if negb (includes (permissions source) (MANAGE_PERMISSIONS Permissions))
  then false
  else if negb (String.eqb (bdeUUID source) (bdeUUID target))
  then false
  else
    let sourceLevel := findPermissionLevel source in
    let targetLevel := findPermissionLevel target in
    Z.ltb targetLevel sourceLevel.

(** The condition of the first [if] of [canManagePermissions], the ALL
    bypass: source holds ALL and target does not. *)
Definition bypass (source target : Subject) : bool :=
  includes (permissions source) (ALL Permissions)
  && negb (includes (permissions target) (ALL Permissions)).

Definition canAddUser (source : Subject) (bde : string) : bool :=
  if includes (permissions source) (ALL Permissions)
  then true
  else if negb (includes (permissions source) (ADD_USER Permissions))
  then false
  else String.eqb (bdeUUID source) bde.

End WithCatalog.

(** [permissionsName.includes(n)] on strings. *)
Definition includes_name (permissionsName : list string) (n : string) : bool :=
  existsb (fun m => String.eqb m n) permissionsName.

(** [Object.values(Permissions).filter(p => permissionsName.includes(p.name))];
    [values] is [Object.values(Permissions)], the entries of the catalog in
    the order they are declared. *)
Definition permissionsFromStrings (values : list Permission)
    (permissionsName : list string) : list Permission :=
  List.filter (fun p => includes_name permissionsName (name p)) values.

End PermissionModel.

(** ** Data model ([models], [services], luxon's [DateTime]) *)

Module Models.

(** A luxon [DateTime].  Relational operators go through [valueOf], which
    is the epoch timestamp in milliseconds of a valid instant and [NaN] of
    an invalid one. *)
Inductive DateTime : Type :=
| Instant (ts : Z)
| InvalidDateTime.

(** [valueOf]; [None] stands for [NaN]. *)
Definition valueOf (d : DateTime) : option Z :=
  match d with
  | Instant ts => Some ts
  | InvalidDateTime => None
  end.

(** [a < b]: false as soon as one side is [NaN]. *)
Definition lt (a b : DateTime) : bool :=
  match valueOf a, valueOf b with
  | Some x, Some y => Z.ltb x y
  | _, _ => false
  end.

(** [a > b] *)
Definition gt (a b : DateTime) : bool := lt b a.

(** [a <= b]: false as soon as one side is [NaN]. *)
Definition le (a b : DateTime) : bool :=
  match valueOf a, valueOf b with
  | Some x, Some y => Z.leb x y
  | _, _ => false
  end.

Record Event : Type := mkEvent
  { eventUUID : string;
    bdeUUID : string;
    eventName : string;
    isDraft : bool;
    bookingStart : option DateTime;
    bookingEnd : option DateTime;
    eventDate : option DateTime }.

Record Booking : Type := mkBooking
  { booking_eventUUID : string;
    booking_userUUID : string }.

(** An element of [(Booking & Event)[]]: the fields of the event together
    with the [userUUID] of the booking. *)
Record BookingAndEvent : Type := mkBookingAndEvent
  { be_userUUID : string;
    be_event : Event }.

(** The claims decoded from a token ([services/auth.service.ts]). *)
Record JWTClaims : Type := mkJWTClaims
  { uuid : string;
    bde_uuid : string;
    firstname : string;
    lastname : string;
    iat : Z }.

(** The members of [EventsErrorType] and [BookingsErrorType] the
    controllers compare against; [*_OTHER] stands for every other member.
    [BOOKING_EVENT_NOT_EXISTS] is [BookingsErrorType.EVENT_NOT_EXISTS]. *)
Inductive EventsErrorType : Type :=
| EVENT_NOT_EXISTS
| BDE_UUID_NOT_EXISTS
| EVENTS_OTHER (n : nat).

Inductive BookingsErrorType : Type :=
| BOOKING_EVENT_NOT_EXISTS
| USER_NOT_EXISTS
| BOOKING_ALREADY_EXISTS
| BOOKING_NOT_EXISTS
| BOOKINGS_OTHER (n : nat).

(** What a rejected promise carries: a service error with its [type], or
    anything else. *)
Inductive Thrown : Type :=
| EventsServiceError (type : EventsErrorType)
| BookingsServiceError (type : BookingsErrorType)
| OtherError (message : string).

(** [e.type === EventsErrorType.X] *)
Definition is_events_error (e : Thrown) (t : EventsErrorType) : bool :=
  match e, t with
  | EventsServiceError EVENT_NOT_EXISTS, EVENT_NOT_EXISTS => true
  | EventsServiceError BDE_UUID_NOT_EXISTS, BDE_UUID_NOT_EXISTS => true
  | EventsServiceError (EVENTS_OTHER n), EVENTS_OTHER m => Nat.eqb n m
  | _, _ => false
  end.

(** [e.type === BookingsErrorType.X] *)
Definition is_bookings_error (e : Thrown) (t : BookingsErrorType) : bool :=
  match e, t with
  | BookingsServiceError BOOKING_EVENT_NOT_EXISTS, BOOKING_EVENT_NOT_EXISTS => true
  | BookingsServiceError USER_NOT_EXISTS, USER_NOT_EXISTS => true
  | BookingsServiceError BOOKING_ALREADY_EXISTS, BOOKING_ALREADY_EXISTS => true
  | BookingsServiceError BOOKING_NOT_EXISTS, BOOKING_NOT_EXISTS => true
  | BookingsServiceError (BOOKINGS_OTHER n), BOOKINGS_OTHER m => Nat.eqb n m
  | _, _ => false
  end.

(** The outcome of an awaited promise. *)
Inductive Settled (A : Type) : Type :=
| Resolved (a : A)
| Rejected (e : Thrown).
Arguments Resolved {A} a.
Arguments Rejected {A} e.

(** A JSON value of a request body; nested objects and arrays are opaque. *)
Inductive JsValue : Type :=
| JsNull
| JsBoolean (b : bool)
| JsNumber (n : Z)
| JsString (s : string)
| JsOpaque.

(** The result of [Validator.validate]. *)
Inductive ValidationResult (A : Type) : Type :=
| Valid (value : A)
| Invalid (message : string).
Arguments Valid {A} value.
Arguments Invalid {A} message.

(** A string used as a condition: the empty string is falsy. *)
Definition truthy (s : option string) : option string :=
  match s with
  | Some t => if String.eqb t "" then None else Some t
  | None => None
  end.

End Models.

(** ** HTTP responses ([utils/http-code.ts]) *)

Module httpCode.
Import Models.

Inductive Body : Type :=
| Message (m : string)
| OneBooking (b : Booking)
| Bookings (l : list BookingAndEvent)
| OneEvent (e : Event)
| Events (l : list Event)
| Empty.

Record Response : Type := mkResponse
  { code : Z;
    body : Body }.

(** Modelled from the spec: [utils/http-code.ts] is not part of the
    sources; a response constructor carries a status code and an optional
    body or message.  [ok] is status 200. *)
Definition ok (b : Body) : Response := mkResponse 200 b.
(** Modelled from the spec: [created] of [utils/http-code.ts], status 201. *)
Definition created (b : Body) : Response := mkResponse 201 b.
(** Modelled from the spec: [noContent] of [utils/http-code.ts], status 204. *)
Definition noContent : Response := mkResponse 204 Empty.
(** Modelled from the spec: [badRequest] of [utils/http-code.ts], status 400. *)
Definition badRequest (m : string) : Response := mkResponse 400 (Message m).
(** Modelled from the spec: [unauthorized] of [utils/http-code.ts], status 401. *)
Definition unauthorized (m : string) : Response := mkResponse 401 (Message m).
(** Modelled from the spec: [forbidden] of [utils/http-code.ts], status 403. *)
Definition forbidden (m : string) : Response := mkResponse 403 (Message m).
(** Modelled from the spec: [notFound] of [utils/http-code.ts], status 404. *)
Definition notFound (m : string) : Response := mkResponse 404 (Message m).
(** Modelled from the spec: [internalServerError] of [utils/http-code.ts],
    status 500. *)
Definition internalServerError (m : string) : Response := mkResponse 500 (Message m).

End httpCode.

(** ** Awaited collaborators

    A controller method is a sequence of awaited calls to its collaborators
    (authentication, events and bookings services, logger, clock, uuid
    generator).  [Prog] is the tree of those calls; [run] executes it
    against a handler that threads the state of the outside world, and
    records the calls made, in order. *)

Module Effects.
Import Models.

Inductive Call : Type :=
| verifyToken (token : string)
| events_findByUUID (eventUUID : string)
| events_findAll
| events_create (event : Event)
| events_update (event : Event)
| events_delete (eventUUID : string)
| bookings_create (booking : Booking)
| bookings_findOne (userUUID eventUUID : string)
| bookings_findBookingsForUser (userUUID : string)
| bookings_findBookingsForEvent (eventUUID : string)
| logging_error (e : Thrown)
| DateTime_local
| uuid_v4.

(** What each call answers. *)
Definition Answer (c : Call) : Type :=
  match c with
  | verifyToken _ => Settled JWTClaims
  | events_findByUUID _ => Settled Event
  | events_findAll => Settled (list Event)
  | events_create _ => Settled Event
  | events_update _ => Settled Event
  | events_delete _ => Settled unit
  | bookings_create _ => Settled Booking
  | bookings_findOne _ _ => Settled Booking
  | bookings_findBookingsForUser _ => Settled (list BookingAndEvent)
  | bookings_findBookingsForEvent _ => Settled (list BookingAndEvent)
  | logging_error _ => unit
  | DateTime_local => DateTime
  | uuid_v4 => string
  end.

Inductive Prog (A : Type) : Type :=
| Ret (a : A)
| Await (c : Call) (k : Answer c -> Prog A).
Arguments Ret {A} a.
Arguments Await {A} c k.

Fixpoint bind {A B} (p : Prog A) (f : A -> Prog B) : Prog B :=
  match p with
  | Ret a => f a
  | Await c k => Await c (fun x => bind (k x) f)
  end.

Definition await (c : Call) : Prog (Answer c) := Await c Ret.

Declare Scope prog_scope.
Delimit Scope prog_scope with prog.
Notation "'let*' x ':=' p 'in' q" := (bind p (fun x => q))
  (at level 10, x name, p at level 100, q at level 200) : prog_scope.
Notation "'do' p 'then' q" := (bind p (fun _ => q))
  (at level 10, p at level 100, q at level 200) : prog_scope.

Section Run.
Context {World : Type}.

(** How the outside world answers a call and evolves. *)
Definition Handler : Type := forall c : Call, World -> Answer c * World.

Variable handle : Handler.

Record Outcome (A : Type) : Type := mkOutcome
  { result : A;
    world : World;
    trace : list Call }.
Arguments mkOutcome {A}.
Arguments result {A}.
Arguments world {A}.
Arguments trace {A}.

Fixpoint run {A} (p : Prog A) (w : World) : Outcome A :=
  match p with
  | Ret a => mkOutcome a w []
  | Await c k =>
      let '(x, w') := handle c w in
      let o := run (k x) w' in
      mkOutcome (result o) (world o) (c :: trace o)
  end.

End Run.
Arguments mkOutcome {World A}.
Arguments result {World A}.
Arguments world {World A}.
Arguments trace {World A}.

End Effects.

(** ** [controllers/booking.controller.ts] *)

Module BookingsController.
Import Models httpCode Effects.
Local Open Scope prog_scope.

(** The value a valid booking body validates to:
    [{ user: string, event: string, force?: boolean }]. *)
Record BookingBody : Type := mkBookingBody
  { user : string;
    event : string;
    force : option bool }.

(** [d && cmp(d)] for an optional [DateTime]: an object is truthy,
    [undefined] is not. *)
Definition set_and (d : option DateTime) (cmp : DateTime -> bool) : bool :=
  match d with
  | Some x => cmp x
  | None => false
  end.

(** The decision of [canBookNow] once [now] has been read. *)
Definition canBookNow_at (now : DateTime) (event : Event) : bool :=
  if set_and (bookingStart event) (fun start => gt start now) then false
  else if set_and (bookingEnd event) (fun end_ => lt end_ now) then false
  else true.

Definition canBookNow (event : Event) : Prog bool :=
  let* now := await DateTime_local in
  Ret (canBookNow_at now event).

Section Controller.

(** [canManageBooking(claims, { userUUID, bdeUUID })] and
    [canManageEvents(claims, bdeUUID)] of [utils/permissions.ts], and the
    validator built by [ValidatorBuilder]. *)
Variable canManageBooking : JWTClaims -> string -> string -> bool.
Variable canManageEvents : JWTClaims -> string -> bool.
Variable BOOKING_VALIDATOR : gmap string JsValue -> ValidationResult BookingBody.

Definition create (eventUUID userUUID : string)
    (body : option (gmap string JsValue)) (token : option string) : Prog Response :=
  let body :=
    <["event" := JsString eventUUID]>
      (<["user" := JsString userUUID]> (default ∅ body)) in
  match truthy token with
  | None => Ret (unauthorized "You must authenticate.")
  | Some token =>
  let* verified := await (verifyToken token) in
  match verified with
  | Rejected _ => Ret (unauthorized "The given token is invalid.")
  | Resolved jwtClaims =>
  match BOOKING_VALIDATOR body with
  | Invalid message => Ret (badRequest message)
  | Valid value =>
  let booking := mkBooking (event value) (user value) in
  let* found := await (events_findByUUID (booking_eventUUID booking)) in
  match found with
  | Rejected e =>
      if is_events_error e EVENT_NOT_EXISTS
      then Ret (badRequest "Invalid event UUID specified.")
      else
        do await (logging_error e) then
        Ret (internalServerError
               "Unable to create booking. Contact an adminstrator or retry later.")
  | Resolved event =>
  if negb (canManageBooking jwtClaims (booking_userUUID booking) (bdeUUID event))
  then Ret (forbidden "You do not have the permission to create this booking.")
  else
  let forced := match force value with Some b => b | None => false end in
  if forced && negb (canManageEvents jwtClaims (bdeUUID event))
  then Ret (forbidden "You do not have permission to force booking.")
  else
  let* closed :=
    (if negb forced
     then let* open := canBookNow event in Ret (negb open)
     else Ret false) in
  if closed : bool
  then Ret (forbidden "It is not possible to book this event now.")
  else
  let* stored := await (bookings_create booking) in
  match stored with
  | Resolved booking => Ret (created (OneBooking booking))
  | Rejected e =>
      if is_bookings_error e BOOKING_EVENT_NOT_EXISTS
      then Ret (badRequest "Specified bde UUID is invalid.")
      else if is_bookings_error e USER_NOT_EXISTS
      then Ret (badRequest "Specified user UUID is invalid.")
      else if is_bookings_error e BOOKING_ALREADY_EXISTS
      then Ret (badRequest "This booking already exists.")
      else
        do await (logging_error e) then
        Ret (internalServerError
               "Unable to create booking. Contact an adminstrator or retry later.")
  end end end end end.

Definition findOne (eventUUID userUUID : string) (token : option string)
    : Prog Response :=
  match truthy token with
  | None => Ret (unauthorized "You must authenticate.")
  | Some token =>
  let* verified := await (verifyToken token) in
  match verified with
  | Rejected _ => Ret (unauthorized "The given token is invalid.")
  | Resolved jwtClaims =>
  let* found := await (events_findByUUID eventUUID) in
  match found with
  | Rejected e =>
      if is_events_error e EVENT_NOT_EXISTS
      then Ret (notFound "Event does not exists.")
      else
        do await (logging_error e) then
        Ret (internalServerError
               "Can't retrieve booking. Contact an adminstrator or retry later.")
  | Resolved event =>
  if negb (canManageBooking jwtClaims userUUID (bdeUUID event))
  then Ret (forbidden "You do not have permission to fetch this booking.")
  else
  let* fetched := await (bookings_findOne userUUID eventUUID) in
  match fetched with
  | Resolved booking => Ret (ok (OneBooking booking))
  | Rejected e =>
      if is_bookings_error e BOOKING_NOT_EXISTS
      then Ret (notFound "This booking does not exist.")
      else
        do await (logging_error e) then
        Ret (internalServerError
               "Unable to fecth booking. Contact an adminstrator or retry later.")
  end end end end.

Definition findUserBookings (userUUID : string) (token : option string)
    : Prog Response :=
  match truthy token with
  | None => Ret (unauthorized "You must authenticate.")
  | Some token =>
  let* verified := await (verifyToken token) in
  match verified with
  | Rejected _ => Ret (unauthorized "The given token is invalid.")
  | Resolved jwtClaims =>
  let* fetched := await (bookings_findBookingsForUser userUUID) in
  match fetched with
  | Rejected e =>
      do await (logging_error e) then
      Ret (internalServerError
             "Unable to fecth booking. Contact an adminstrator or retry later.")
  | Resolved booking =>
  let booking :=
    List.filter
      (fun booking =>
         canManageBooking jwtClaims (be_userUUID booking) (bdeUUID (be_event booking)))
      booking in
  Ret (ok (Bookings booking))
  end end end.

Definition findEventBookings (eventUUID : string) (token : option string)
    : Prog Response :=
  match truthy token with
  | None => Ret (unauthorized "You must authenticate.")
  | Some token =>
  let* verified := await (verifyToken token) in
  match verified with
  | Rejected _ => Ret (unauthorized "The given token is invalid.")
  | Resolved jwtClaims =>
  let* fetched := await (bookings_findBookingsForEvent eventUUID) in
  match fetched with
  | Rejected e =>
      do await (logging_error e) then
      Ret (internalServerError
             "Unable to fecth bookings. Contact an adminstrator or retry later.")
  | Resolved booking =>
  Ret (ok (Bookings booking))
  end end end.

End Controller.

End BookingsController.

(** ** [controllers/events.controller.ts] *)

Module EventsController.
Import Models httpCode Effects.
Local Open Scope prog_scope.

(** [EventBodyRequest] *)
Record EventBodyRequest : Type := mkEventBodyRequest
  { body_name : string;
    body_bde : string;
    body_isDraft : bool;
    body_bookingStart : option string;
    body_bookingEnd : option string;
    body_eventDate : option string }.

(** [areBookingDatesWellOrdered] *)
Definition areBookingDatesWellOrdered (event : Event) : bool :=
  match bookingStart event, bookingEnd event with
  | None, _ => true
  | _, None => true
  | Some start, Some end_ => lt start end_
  end.

Section Controller.

(** [canManageEvents] of [utils/permissions.ts], the validator built by
    [ValidatorBuilder], and luxon's [DateTime.fromISO]. *)
Variable canManageEvents : JWTClaims -> string -> bool.
Variable EVENT_VALIDATOR :
  option (gmap string JsValue) -> ValidationResult EventBodyRequest.
Variable fromISO : string -> DateTime.

(** [if (eventData.f) { event.f = DateTime.fromISO(eventData.f); }] *)
Definition assignDate (previous : option DateTime) (given : option string)
    : option DateTime :=
  match truthy given with
  | Some iso => Some (fromISO iso)
  | None => previous
  end.

Definition assignDates (event : Event) (eventData : EventBodyRequest) : Event :=
  {| eventUUID := eventUUID event;
     bdeUUID := bdeUUID event;
     eventName := eventName event;
     isDraft := isDraft event;
     bookingStart := assignDate (bookingStart event) (body_bookingStart eventData);
     bookingEnd := assignDate (bookingEnd event) (body_bookingEnd eventData);
     eventDate := assignDate (eventDate event) (body_eventDate eventData) |}.

Definition create (body : option (gmap string JsValue)) (token : option string)
    : Prog Response :=
  match truthy token with
  | None => Ret (unauthorized "You must be connected.")
  | Some token =>
  let* verified := await (verifyToken token) in
  match verified with
  | Rejected _ => Ret (unauthorized "The given token is invalid.")
  | Resolved claims =>
  match EVENT_VALIDATOR body with
  | Invalid message => Ret (badRequest message)
  | Valid value =>
  let* fresh := await uuid_v4 in
  let event :=
    mkEvent fresh (body_bde value) (body_name value) (body_isDraft value)
            None None None in
  let event := assignDates event value in
  if negb (areBookingDatesWellOrdered event)
  then Ret (badRequest
              "Booking end date must come (strictly) after booking beginning date.")
  else
  if negb (canManageEvents claims (body_bde value))
  then Ret (forbidden "You do not have the permission to create this event.")
  else
  let* stored := await (events_create event) in
  match stored with
  | Resolved event => Ret (created (OneEvent event))
  | Rejected e =>
      if is_events_error e BDE_UUID_NOT_EXISTS
      then Ret (badRequest "Given bde UUID does not exist.")
      else
        do await (logging_error e) then
        Ret (internalServerError
               "Unable to create an event. Contact an administrator or retry later.")
  end end end end.

Definition findOne (eventUUID : string) (token : option string) : Prog Response :=
  let* found := await (events_findByUUID eventUUID) in
  match found with
  | Rejected e =>
      if is_events_error e EVENT_NOT_EXISTS
      then Ret (notFound "Not found")
      else
        do await (logging_error e) then
        Ret (internalServerError
               "Unable to fetch this event. Contact an adminstrator or retry later.")
  | Resolved event =>
  if isDraft event
  then
    match truthy token with
    | None => Ret (unauthorized "You must authenticate to access this resource.")
    | Some token =>
    let* verified := await (verifyToken token) in
    match verified with
    | Rejected _ => Ret (unauthorized "The given token is invalid.")
    | Resolved user =>
    if negb (canManageEvents user (bdeUUID event))
    then Ret (forbidden "You do not have the permission to access this resource.")
    else Ret (ok (OneEvent event))
    end end
  else Ret (ok (OneEvent event))
  end.

Definition patchEvent (eventUUID : string) (body : option (gmap string JsValue))
    (token : option string) : Prog Response :=
  match truthy token with
  | None => Ret (unauthorized "You must be connected.")
  | Some token =>
  let* verified := await (verifyToken token) in
  match verified with
  | Rejected _ => Ret (unauthorized "The given token is invalid.")
  | Resolved claims =>
  match EVENT_VALIDATOR body with
  | Invalid message => Ret (badRequest message)
  | Valid value =>
  let event :=
    mkEvent eventUUID (body_bde value) (body_name value) (body_isDraft value)
            None None None in
  let event := assignDates event value in
  if negb (areBookingDatesWellOrdered event)
  then Ret (badRequest "bookingEnd date must come (strictly) after bookingStart date.")
  else
  let* found := await (events_findByUUID (Models.eventUUID event)) in
  match found with
  | Rejected e =>
      if is_events_error e EVENT_NOT_EXISTS
      then Ret (notFound ("No event with uuid " ++ Models.eventUUID event ++ " exists."))
      else
        do await (logging_error e) then
        Ret (internalServerError
               "Unable to patch the event. Please contact and adminstrator or retry later.")
  | Resolved fetchedEvent =>
  if negb (String.eqb (bdeUUID event) (bdeUUID fetchedEvent))
     && negb (canManageEvents claims (bdeUUID event))
  then Ret (forbidden "You do not have the permission to patch this event.")
  else
  if negb (canManageEvents claims (bdeUUID fetchedEvent))
  then Ret (forbidden "You do not have the permission to patch this event.")
  else
  let* stored := await (events_update event) in
  match stored with
  | Resolved event => Ret (ok (OneEvent event))
  | Rejected e =>
      if is_events_error e EVENT_NOT_EXISTS
      then Ret (notFound ("No event with uuid " ++ Models.eventUUID event ++ " exists."))
      else if is_events_error e BDE_UUID_NOT_EXISTS
      then Ret (badRequest ("No BDE with UUID " ++ bdeUUID event ++ " exists."))
      else
        do await (logging_error e) then
        Ret (internalServerError
               "Unable to patch event. Contact an administrator or retry later.")
  end end end end end.

Definition deleteEvent (eventUUID : string) (token : option string) : Prog Response :=
  match truthy token with
  | None => Ret (unauthorized "You must be connected.")
  | Some token =>
  let* verified := await (verifyToken token) in
  match verified with
  | Rejected _ => Ret (unauthorized "The given token is invalid.")
  | Resolved claims =>
  let* found := await (events_findByUUID eventUUID) in
  match found with
  | Rejected e =>
      if is_events_error e EVENT_NOT_EXISTS
      then Ret (notFound ("No event with uuid " ++ eventUUID ++ " exists."))
      else
        do await (logging_error e) then
        Ret (internalServerError
               "Unable to delete the event. Please contact and adminstrator or retry later.")
  | Resolved fetchedEvent =>
  if negb (canManageEvents claims (bdeUUID fetchedEvent))
  then Ret (forbidden "You do not have the permission to patch this event.")
  else
  let* deleted := await (events_delete eventUUID) in
  match deleted with
  | Resolved _ => Ret noContent
  | Rejected e =>
      if is_events_error e EVENT_NOT_EXISTS
      then Ret (notFound ("No event with uuid " ++ eventUUID ++ " exists."))
      else
        do await (logging_error e) then
        Ret (internalServerError
               "Unable to delete event. Contact an administrator or retry later.")
  end end end end.

(** The filter of [findAll]:
    [!event.isDraft || (jwtClaims !== null && canManageEvents(jwtClaims, event.bdeUUID))] *)
Definition visible (jwtClaims : option JWTClaims) (event : Event) : bool :=
  negb (isDraft event)
  || match jwtClaims with
     | Some claims => canManageEvents claims (bdeUUID event)
     | None => false
     end.

Definition findAll (token : option string) : Prog Response :=
  let* fetched := await events_findAll in
  match fetched with
  | Rejected e =>
      do await (logging_error e) then
      Ret (internalServerError "Unable to list events.")
  | Resolved events =>
  let* jwtClaims :=
    match truthy token with
    | None => Ret None
    | Some token =>
        let* verified := await (verifyToken token) in
        match verified with
        | Resolved claims => Ret (Some claims)
        | Rejected _ => Ret None
        end
    end in
  let filteredEvents := List.filter (visible jwtClaims) events in
  Ret (ok (Events filteredEvents))
  end.

End Controller.

End EventsController.


(** ** Sample data

    A catalog, users, events and an in-memory world, used to exercise the
    definitions above on concrete inputs. *)

Module Samples.
Import PermissionModel.

Definition catalog : PermissionsCatalog :=
  {| ALL := mkPermission 0 "ALL" 4;
     MANAGE_PERMISSIONS := mkPermission 1 "MANAGE_PERMISSIONS" 3;
     ADD_USER := mkPermission 2 "ADD_USER" 1 |}.

(** A permission object that is not an entry of [catalog]. *)
Definition supervisor : Permission := mkPermission 7 "SUPERVISOR" 9.

(** A permission object with a negative rank. *)
Definition suspended : Permission := mkPermission 8 "SUSPENDED" (-3).

Definition root (bde : string) : Subject :=
  mkSubject bde [ALL catalog].

Definition manager (bde : string) : Subject :=
  mkSubject bde [MANAGE_PERMISSIONS catalog].

Definition member (bde : string) : Subject :=
  mkSubject bde [ADD_USER catalog].

Definition nobody (bde : string) : Subject :=
  mkSubject bde [].

(** Holds ALL next to MANAGE_PERMISSIONS and a higher-ranked permission. *)
Definition overseer (bde : string) : Subject :=
  mkSubject bde [ALL catalog; MANAGE_PERMISSIONS catalog; supervisor].


(** [Object.values] of a catalog with five entries. *)
Definition catalog_values : list Permission :=
  [ALL catalog; MANAGE_PERMISSIONS catalog; ADD_USER catalog;
   mkPermission 3 "MANAGE_EVENTS" 2; mkPermission 4 "MANAGE_BOOKINGS" 2].

(** Holds MANAGE_PERMISSIONS and the higher-ranked [supervisor]. *)
Definition senior (bde : string) : Subject :=
  mkSubject bde [MANAGE_PERMISSIONS catalog; supervisor].

(** *** An in-memory world for the controllers *)

Import Models Effects.

Record World : Type := mkWorld
  { sessions : list (string * JWTClaims);
    events : list Event;
    bookings : list Booking;
    clock : Z;
    logged : list Thrown }.

Definition find_event (eventUUID : string) (w : World) : option Event :=
  List.find (fun e => String.eqb (Models.eventUUID e) eventUUID) (events w).

Definition same_booking (a b : Booking) : bool :=
  String.eqb (booking_eventUUID a) (booking_eventUUID b)
  && String.eqb (booking_userUUID a) (booking_userUUID b).

Definition joined (w : World) (keep : Booking -> bool) : list BookingAndEvent :=
  flat_map
    (fun b =>
       if keep b
       then match find_event (booking_eventUUID b) w with
            | Some e => [mkBookingAndEvent (booking_userUUID b) e]
            | None => []
            end
       else [])
    (bookings w).

Definition with_events (w : World) (l : list Event) : World :=
  mkWorld (sessions w) l (bookings w) (clock w) (logged w).

Definition with_bookings (w : World) (l : list Booking) : World :=
  mkWorld (sessions w) (events w) l (clock w) (logged w).

(** The collaborators of the controllers, served from memory. *)
Definition serve : Handler (World := World) :=
  fun c =>
    match c return World -> Answer c * World with
    | verifyToken token => fun w =>
        match List.find (fun s => String.eqb (fst s) token) (sessions w) with
        | Some s => (Resolved (snd s), w)
        | None => (Rejected (OtherError "invalid token"), w)
        end
    | events_findByUUID eventUUID => fun w =>
        match find_event eventUUID w with
        | Some e => (Resolved e, w)
        | None => (Rejected (EventsServiceError EVENT_NOT_EXISTS), w)
        end
    | events_findAll => fun w => (Resolved (events w), w)
    | events_create e => fun w => (Resolved e, with_events w (events w ++ [e]))
    | events_update e => fun w =>
        match find_event (Models.eventUUID e) w with
        | Some _ =>
            (Resolved e,
             with_events w
               (map (fun old => if String.eqb (Models.eventUUID old) (Models.eventUUID e)
                                then e else old)
                    (events w)))
        | None => (Rejected (EventsServiceError EVENT_NOT_EXISTS), w)
        end
    | events_delete eventUUID => fun w =>
        match find_event eventUUID w with
        | Some _ =>
            (Resolved tt,
             with_events w
               (List.filter (fun e => negb (String.eqb (Models.eventUUID e) eventUUID))
                            (events w)))
        | None => (Rejected (EventsServiceError EVENT_NOT_EXISTS), w)
        end
    | bookings_create b => fun w =>
        if existsb (same_booking b) (bookings w)
        then (Rejected (BookingsServiceError BOOKING_ALREADY_EXISTS), w)
        else (Resolved b, with_bookings w (bookings w ++ [b]))
    | bookings_findOne userUUID eventUUID => fun w =>
        match List.find (same_booking (mkBooking eventUUID userUUID)) (bookings w) with
        | Some b => (Resolved b, w)
        | None => (Rejected (BookingsServiceError BOOKING_NOT_EXISTS), w)
        end
    | bookings_findBookingsForUser userUUID => fun w =>
        (Resolved (joined w (fun b => String.eqb (booking_userUUID b) userUUID)), w)
    | bookings_findBookingsForEvent eventUUID => fun w =>
        (Resolved (joined w (fun b => String.eqb (booking_eventUUID b) eventUUID)), w)
    | logging_error e => fun w =>
        (tt, mkWorld (sessions w) (events w) (bookings w) (clock w) (logged w ++ [e]))
    | DateTime_local => fun w => (Instant (clock w), w)
    | uuid_v4 => fun w => ("00000000-0000-4000-8000-000000000000", w)
    end.

(** Sample authorization predicates: the staff of a BDE manages its events;
    a booking is managed by its own user and by the staff of its BDE. *)
Definition staff : list string := ["u-staff-1"; "u-staff-2"].

Definition canManageEvents (claims : JWTClaims) (bde : string) : bool :=
  existsb (String.eqb (uuid claims)) staff && String.eqb (bde_uuid claims) bde.

Definition canManageBooking (claims : JWTClaims) (userUUID bde : string) : bool :=
  String.eqb (uuid claims) userUUID || canManageEvents claims bde.

(** A sample of [DateTime.fromISO]: three instants, everything else invalid. *)
Definition fromISO (iso : string) : DateTime :=
  if String.eqb iso "2020-03-01T00:00:00.000Z" then Instant 1583020800000
  else if String.eqb iso "2020-03-08T00:00:00.000Z" then Instant 1583625600000
  else if String.eqb iso "2020-03-15T00:00:00.000Z" then Instant 1584230400000
  else InvalidDateTime.

Definition length_between (lo hi : nat) (s : string) : bool :=
  Nat.leb lo (String.length s) && Nat.leb (String.length s) hi.

(** A sample booking validator: [user] and [event] are strings of 1 to 36
    characters, [force] is a boolean when present. *)
Definition BOOKING_VALIDATOR (body : gmap string JsValue)
    : ValidationResult BookingsController.BookingBody :=
  match body !! "user", body !! "event" with
  | Some (JsString u), Some (JsString e) =>
      if length_between 1 36 u && length_between 1 36 e
      then match body !! "force" with
           | None => Valid (BookingsController.mkBookingBody u e None)
           | Some (JsBoolean b) => Valid (BookingsController.mkBookingBody u e (Some b))
           | Some _ => Invalid "force must be a boolean"
           end
      else Invalid "user and event must have 1 to 36 characters"
  | _, _ => Invalid "user and event are required"
  end.

(** An optional date-time field of a body. *)
Definition date_field (body : gmap string JsValue) (key : string)
    : option (option string) :=
  match body !! key with
  | None => Some None
  | Some (JsString iso) =>
      match fromISO iso with
      | Instant _ => Some (Some iso)
      | InvalidDateTime => None
      end
  | Some _ => None
  end.

(** A sample event validator. *)
Definition EVENT_VALIDATOR (body : option (gmap string JsValue))
    : ValidationResult EventsController.EventBodyRequest :=
  match body with
  | None => Invalid "a body is required"
  | Some body =>
      match body !! "name", body !! "bde", body !! "isDraft" with
      | Some (JsString n), Some (JsString b), Some (JsBoolean d) =>
          if length_between 1 200 n && Nat.leb 1 (String.length b)
          then match date_field body "bookingStart",
                     date_field body "bookingEnd",
                     date_field body "eventDate" with
               | Some s, Some e, Some d' =>
                   Valid (EventsController.mkEventBodyRequest n b d s e d')
               | _, _, _ => Invalid "dates must be ISO date-times"
               end
          else Invalid "name must have 1 to 200 characters, bde at least 1"
      | _, _, _ => Invalid "name, bde and isDraft are required"
      end
  end.

Definition alice : JWTClaims := mkJWTClaims "u-alice" "bde-1" "Alice" "A" 1583000000.
Definition staff1 : JWTClaims := mkJWTClaims "u-staff-1" "bde-1" "Sam" "S" 1583000000.
Definition staff2 : JWTClaims := mkJWTClaims "u-staff-2" "bde-2" "Tom" "T" 1583000000.

(** A public event of bde-1 whose booking window is the week of 2020-03-01. *)
Definition gala : Event :=
  mkEvent "e-gala" "bde-1" "Gala" false
          (Some (Instant 1583020800000)) (Some (Instant 1583625600000)) None.

(** A draft of bde-1 and a draft of bde-2, without booking window. *)
Definition draft1 : Event := mkEvent "e-draft-1" "bde-1" "Draft one" true None None None.
Definition draft2 : Event := mkEvent "e-draft-2" "bde-2" "Draft two" true None None None.

(** The world on 2020-03-15, after the booking window of [gala] closed. *)
Definition world0 : World :=
  {| sessions := [("t-alice", alice); ("t-staff-1", staff1); ("t-staff-2", staff2)];
     events := [gala; draft1; draft2];
     bookings := [mkBooking "e-gala" "u-alice"; mkBooking "e-gala" "u-bob"];
     clock := 1584230400000;
     logged := [] |}.

(** The same world on 2020-03-05, inside the booking window of [gala]. *)
Definition world_open : World :=
  mkWorld (sessions world0) (events world0) (bookings world0) 1583366400000 (logged world0).


(** A body whose booking window ends a week before it starts, and the same
    body with the two dates in order. *)
Definition backwards_body : gmap string JsValue :=
  <["bookingEnd" := JsString "2020-03-01T00:00:00.000Z"]>
    (<["bookingStart" := JsString "2020-03-08T00:00:00.000Z"]>
       (<["isDraft" := JsBoolean false]>
          (<["bde" := JsString "bde-1"]>
             {["name" := JsString "Gala"]}))).

Definition ordered_body (bde : string) : gmap string JsValue :=
  <["bookingEnd" := JsString "2020-03-08T00:00:00.000Z"]>
    (<["bookingStart" := JsString "2020-03-01T00:00:00.000Z"]>
       (<["isDraft" := JsBoolean false]>
          (<["bde" := JsString bde]>
             {["name" := JsString "Gala"]}))).

End Samples.
(** * Properties *)

(** ** The permission model *)

Module PermissionProperties.
Import PermissionModel.

(** *** [Math.max] *)

Lemma Math_max_lower (xs : list Z) (x : Z) : x <= Math_max x xs.
Proof.
  unfold Math_max. revert x.
  induction xs as [|y ys IH]; intros x; simpl; [lia|].
  specialize (IH (Z.max x y)). lia.
Qed.

Lemma Math_max_upper (xs : list Z) (x y : Z) :
  In y xs -> y <= Math_max x xs.
Proof.
  unfold Math_max. revert x.
  induction xs as [|z zs IH]; intros x Hin; simpl in *; [contradiction|].
  destruct Hin as [->|Hin].
  - pose proof (Math_max_lower zs (Z.max x y)) as Hlow.
    unfold Math_max in Hlow. lia.
  - now apply IH.
Qed.

Lemma Math_max_attained (xs : list Z) (x : Z) :
  Math_max x xs = x \/ In (Math_max x xs) xs.
Proof.
  unfold Math_max. revert x.
  induction xs as [|z zs IH]; intros x; simpl; [now left|].
  destruct (IH (Z.max x z)) as [Heq|Hin].
  - rewrite Heq. destruct (Z.max_spec x z) as [[_ ->]|[_ ->]]; auto.
  - auto.
Qed.

(** *** [includes] *)

Lemma includes_In (l : list Permission) (p : Permission) :
  includes l p = true <-> exists q, In q l /\ ref q = ref p.
Proof.
  unfold includes, same_object. rewrite existsb_exists.
  split; intros (q & Hin & Hq); exists q; split; auto.
  - now apply Nat.eqb_eq.
  - now apply Nat.eqb_eq.
Qed.

(** *** [canManagePermissions], gate by gate *)

Section Gates.
Variable Permissions : PermissionsCatalog.

#[local] Abbreviation holds who p := (includes (permissions who) (p Permissions)).
#[local] Abbreviation bypass := (PermissionModel.bypass Permissions).

Lemma canManagePermissions_bypass source target :
  bypass source target = true ->
  canManagePermissions Permissions source target = true.
Proof.
  unfold bypass, canManagePermissions. intros ->. reflexivity.
Qed.

(** Without the bypass the three remaining gates decide. *)
Lemma canManagePermissions_no_bypass source target :
  bypass source target = false ->
  canManagePermissions Permissions source target
  = holds source MANAGE_PERMISSIONS
    && String.eqb (bdeUUID source) (bdeUUID target)
    && Z.ltb (findPermissionLevel target) (findPermissionLevel source).
Proof.
  unfold bypass, canManagePermissions. intros ->.
  destruct (holds source MANAGE_PERMISSIONS); simpl; [|reflexivity].
  destruct (String.eqb (bdeUUID source) (bdeUUID target)); reflexivity.
Qed.

Lemma bypass_target_ALL source target :
  holds target ALL = true -> bypass source target = false.
Proof.
  unfold bypass. intros ->. now rewrite andb_false_r.
Qed.

End Gates.

End PermissionProperties.

(** ** [findPermissionLevel] and [canManagePermissions] *)

Module PermissionClaims.
Import PermissionModel PermissionProperties Samples.

(** C1, as stated, fails: a source holding ALL, MANAGE_PERMISSIONS and a
    permission ranked above ALL manages a target of its own BDE that holds
    ALL, although the target's permission set also contains ALL. *)
Lemma canManagePermissions_ALL_target_managed :
  includes (permissions (overseer "bde-1")) (ALL catalog) = true
  /\ includes (permissions (root "bde-1")) (ALL catalog) = true
  /\ canManagePermissions catalog (overseer "bde-1") (root "bde-1") = true.
Proof. repeat split; reflexivity. Qed.

(** Whatever the catalog is, some pair of ALL holders is in that situation:
    the failure of C1 does not depend on the levels the catalog gives. *)
Lemma canManagePermissions_ALL_target_managed_any_catalog
    (Permissions : PermissionsCatalog) :
  exists source target,
    includes (permissions source) (ALL Permissions) = true
    /\ includes (permissions target) (ALL Permissions) = true
    /\ canManagePermissions Permissions source target = true.
Proof.
  set (top := mkPermission
                (S (Nat.max (ref (ALL Permissions)) (ref (MANAGE_PERMISSIONS Permissions))))
                "TOP" (Z.max 0 (level (ALL Permissions)) + 1)).
  exists (mkSubject "b" [ALL Permissions; MANAGE_PERMISSIONS Permissions; top]).
  exists (mkSubject "b" [ALL Permissions]).
  assert (Hself : forall p l, includes (p :: l) p = true).
  { intros p l. unfold includes, same_object. simpl. now rewrite Nat.eqb_refl. }
  assert (Hsnd : forall p q l, includes (q :: p :: l) p = true).
  { intros p q l. unfold includes, same_object. simpl.
    rewrite Nat.eqb_refl. now rewrite orb_true_r. }
  split; [apply Hself|]. split; [apply Hself|].
  rewrite canManagePermissions_no_bypass.
  - unfold permissions, Subject_permissions. simpl subject_permissions.
    rewrite Hsnd. simpl bdeUUID. rewrite String.eqb_refl. simpl.
    apply Z.ltb_lt.
    unfold findPermissionLevel, permissions, Subject_permissions, Math_max.
    simpl. lia.
  - apply bypass_target_ALL. apply Hself.
Qed.

(** C1 (amended): [canManagePermissions source target] is true whenever
    source holds ALL and target does not, whatever the BDEs and the levels;
    whenever target holds ALL the bypass is off and the answer is that of the
    ordinary gates: true exactly when source holds MANAGE_PERMISSIONS, has the
    BDE of target and a strictly greater level, and false otherwise. *)
Theorem canManagePermissions_ALL
    (Permissions : PermissionsCatalog) (source target : Subject) :
  (includes (permissions source) (ALL Permissions) = true ->
   includes (permissions target) (ALL Permissions) = false ->
   canManagePermissions Permissions source target = true)
  /\ (includes (permissions target) (ALL Permissions) = true ->
      canManagePermissions Permissions source target
      = includes (permissions source) (MANAGE_PERMISSIONS Permissions)
        && String.eqb (bdeUUID source) (bdeUUID target)
        && Z.ltb (findPermissionLevel target) (findPermissionLevel source))
  /\ (includes (permissions target) (ALL Permissions) = true ->
      includes (permissions source) (MANAGE_PERMISSIONS Permissions) = false
      \/ bdeUUID source <> bdeUUID target
      \/ findPermissionLevel source <= findPermissionLevel target ->
      canManagePermissions Permissions source target = false).
Proof.
  split; [|split].
  - intros Hs Ht. apply canManagePermissions_bypass.
    unfold bypass. now rewrite Hs, Ht.
  - intros Ht. apply canManagePermissions_no_bypass.
    now apply bypass_target_ALL.
  - intros Ht Hgate.
    rewrite canManagePermissions_no_bypass by now apply bypass_target_ALL.
    destruct Hgate as [-> | [Hbde | Hlvl]].
    + reflexivity.
    + apply String.eqb_neq in Hbde. rewrite Hbde.
      now rewrite andb_false_r.
    + apply Z.ltb_ge in Hlvl. rewrite Hlvl. now rewrite andb_false_r.
Qed.

(** When ALL is ranked at least as high as every permission of source, a
    target holding ALL is out of reach: the second half of C1 holds for
    catalogs that rank ALL on top and subjects that hold catalog entries
    only. *)
Lemma canManagePermissions_ALL_top_ranked
    (Permissions : PermissionsCatalog) (source target : Subject) :
  (forall q, In q (permissions target) ->
             ref q = ref (ALL Permissions) -> level q = level (ALL Permissions)) ->
  (forall p, In p (permissions source) -> level p <= level (ALL Permissions)) ->
  includes (permissions target) (ALL Permissions) = true ->
  canManagePermissions Permissions source target = false.
Proof.
  intros Hobject Htop Ht.
  rewrite canManagePermissions_no_bypass by now apply bypass_target_ALL.
  assert (Hlvl : findPermissionLevel source <= findPermissionLevel target).
  { apply includes_In in Ht. destruct Ht as (q & Hq & Href).
    assert (Hall : level (ALL Permissions) <= findPermissionLevel target).
    { rewrite <- (Hobject q Hq Href). unfold findPermissionLevel.
      apply Math_max_upper. now apply in_map. }
    assert (H0 : 0 <= findPermissionLevel target) by apply Math_max_lower.
    unfold findPermissionLevel at 1.
    destruct (Math_max_attained (map level (permissions source)) 0) as [-> | Hin];
      [exact H0|].
    apply in_map_iff in Hin. destruct Hin as (p & Hp & Hin).
    rewrite <- Hp. specialize (Htop p Hin). lia. }
  apply Z.ltb_ge in Hlvl. rewrite Hlvl. now rewrite andb_false_r.
Qed.

(** C1, on the samples: ALL against a target of another BDE without ALL;
    two holders of ALL alone. *)
Lemma canManagePermissions_ALL_witness :
  canManagePermissions catalog (root "bde-1") (manager "bde-2") = true
  /\ canManagePermissions catalog (root "bde-1") (root "bde-1") = false.
Proof.
  split.
  - apply (proj1 (canManagePermissions_ALL catalog (root "bde-1") (manager "bde-2")));
      reflexivity.
  - apply (proj2 (proj2 (canManagePermissions_ALL catalog (root "bde-1") (root "bde-1"))));
      [reflexivity | left; reflexivity].
Defined.

(** C2, as stated, fails: the BDEs differ and the result is true, because
    source holds ALL and target does not. *)
Lemma canManagePermissions_other_BDE_bypassed :
  bdeUUID (root "bde-1") <> bdeUUID (manager "bde-2")
  /\ canManagePermissions catalog (root "bde-1") (manager "bde-2") = true.
Proof. split; [discriminate | reflexivity]. Qed.

(** C2 (amended): when the ALL bypass does not apply (it is not the case
    that source holds ALL and target does not) and the [bdeUUID] fields
    differ, [canManagePermissions source target] is false, even when the
    level of source is strictly greater than that of target. *)
Theorem canManagePermissions_other_BDE
    (Permissions : PermissionsCatalog) (source target : Subject) :
  bypass Permissions source target = false ->
  bdeUUID source <> bdeUUID target ->
  canManagePermissions Permissions source target = false.
Proof.
  intros Hby Hbde. rewrite canManagePermissions_no_bypass by assumption.
  apply String.eqb_neq in Hbde. rewrite Hbde. now rewrite andb_false_r.
Qed.

(** C2, on the samples: a manager of another BDE, of level 3 against 1. *)
Lemma canManagePermissions_other_BDE_witness :
  findPermissionLevel (member "bde-2") < findPermissionLevel (manager "bde-1")
  /\ canManagePermissions catalog (manager "bde-1") (member "bde-2") = false.
Proof.
  split; [reflexivity|].
  apply canManagePermissions_other_BDE; [reflexivity | discriminate].
Defined.

(** C3: for a source holding MANAGE_PERMISSIONS and a target of the same
    BDE, when the ALL bypass does not apply, [canManagePermissions] is true
    if and only if the level of source is strictly greater than the level of
    target; it is false when the two levels are equal. *)
Theorem canManagePermissions_strict_hierarchy
    (Permissions : PermissionsCatalog) (source target : Subject) :
  includes (permissions source) (MANAGE_PERMISSIONS Permissions) = true ->
  bdeUUID source = bdeUUID target ->
  bypass Permissions source target = false ->
  (canManagePermissions Permissions source target = true
   <-> findPermissionLevel target < findPermissionLevel source)
  /\ (findPermissionLevel source = findPermissionLevel target ->
      canManagePermissions Permissions source target = false).
Proof.
  intros Hmp Hbde Hby.
  rewrite canManagePermissions_no_bypass by assumption.
  rewrite Hmp. apply String.eqb_eq in Hbde. rewrite Hbde. simpl.
  split.
  - apply Z.ltb_lt.
  - intros Heq. apply Z.ltb_ge. lia.
Qed.

(** C3, on the samples: a manager (level 3) against a member (level 1) of
    its BDE, and against another manager. *)
Lemma canManagePermissions_strict_hierarchy_witness :
  canManagePermissions catalog (manager "bde-1") (member "bde-1") = true
  /\ canManagePermissions catalog (manager "bde-1") (manager "bde-1") = false.
Proof.
  split.
  - apply (proj1 (canManagePermissions_strict_hierarchy catalog
                    (manager "bde-1") (member "bde-1")
                    eq_refl eq_refl eq_refl)).
    reflexivity.
  - apply (proj2 (canManagePermissions_strict_hierarchy catalog
                    (manager "bde-1") (manager "bde-1")
                    eq_refl eq_refl eq_refl)).
    reflexivity.
Defined.

(** C4, as stated, fails: an entity whose only permission has level -3 gets
    0, which is the level of none of its permissions. *)
Lemma findPermissionLevel_negative_rank :
  permissions [suspended] = [suspended]
  /\ level suspended = -3
  /\ findPermissionLevel [suspended] = 0.
Proof. repeat split; reflexivity. Qed.

(** C4 (amended): [findPermissionLevel] returns the greatest of 0 and the
    levels of the entity's permissions.  It is never negative, no permission
    of the entity has a greater level, and it is 0 or the level of one of the
    permissions; so it is the maximum level among the permissions as soon as
    one of them has a non-negative level, and 0 when the entity has none.
    The function is total: it never fails. *)
Theorem findPermissionLevel_spec {A} `{WithPermissions A} (user : A) :
  0 <= findPermissionLevel user
  /\ (forall p, In p (permissions user) -> level p <= findPermissionLevel user)
  /\ (findPermissionLevel user = 0
      \/ exists p, In p (permissions user) /\ level p = findPermissionLevel user)
  /\ ((exists p, In p (permissions user) /\ 0 <= level p) ->
      exists p, In p (permissions user) /\ level p = findPermissionLevel user)
  /\ (permissions user = [] -> findPermissionLevel user = 0).
Proof.
  unfold findPermissionLevel.
  assert (Hatt : Math_max 0 (map level (permissions user)) = 0
                 \/ exists p, In p (permissions user)
                              /\ level p = Math_max 0 (map level (permissions user))).
  { destruct (Math_max_attained (map level (permissions user)) 0) as [H0 | Hin].
    - now left.
    - right. apply in_map_iff in Hin. destruct Hin as (p & Hp & Hin). eauto. }
  assert (Hup : forall p, In p (permissions user) ->
                          level p <= Math_max 0 (map level (permissions user))).
  { intros p Hp. apply Math_max_upper. now apply in_map. }
  split; [apply Math_max_lower|]. split; [exact Hup|]. split; [exact Hatt|].
  split.
  - intros (q & Hq & Hpos). destruct Hatt as [H0 | Hex]; [|exact Hex].
    exists q. split; [assumption|]. specialize (Hup q Hq). lia.
  - intros ->. reflexivity.
Qed.

(** C4, on the samples: levels 3 and 7 give 7. *)
Lemma findPermissionLevel_spec_witness :
  findPermissionLevel [mkPermission 3 "THREE" 3; mkPermission 4 "SEVEN" 7] = 7
  /\ findPermissionLevel (nobody "bde-1") = 0.
Proof.
  split.
  - destruct (findPermissionLevel_spec
                [mkPermission 3 "THREE" 3; mkPermission 4 "SEVEN" 7])
      as (_ & Hup & _ & Hatt & _).
    destruct Hatt as (p & Hp & Hlvl).
    + exists (mkPermission 3 "THREE" 3). split; [now left | simpl; lia].
    + specialize (Hup (mkPermission 4 "SEVEN" 7)). simpl in Hup, Hp.
      destruct Hp as [<- | [<- | []]]; simpl in Hlvl; [|now symmetry].
      rewrite <- Hlvl in Hup. specialize (Hup (or_intror (or_introl eq_refl))). lia.
  - apply (findPermissionLevel_spec (nobody "bde-1")). reflexivity.
Defined.

End PermissionClaims.

(** ** Running a controller method *)

Module RunProperties.
Import Models Effects.

Section Run.
Context {World : Type}.
Variable handle : Handler (World := World).

Lemma run_Ret {A} (a : A) (w : World) :
  run handle (Ret a) w = mkOutcome a w [].
Proof. reflexivity. Qed.

Lemma run_Await {A} (c : Call) (k : Answer c -> Prog A) (w : World) :
  run handle (Await c k) w
  = let o := run handle (k (fst (handle c w))) (snd (handle c w)) in
    mkOutcome (result o) (world o) (c :: trace o).
Proof. simpl. destruct (handle c w). reflexivity. Qed.

(** A call answered [x] in world [w'] continues with [k x] from [w']. *)
Lemma run_Await_answer {A} (c : Call) (k : Answer c -> Prog A)
    (w w' : World) (x : Answer c) :
  handle c w = (x, w') ->
  run handle (Await c k) w
  = mkOutcome (result (run handle (k x) w')) (world (run handle (k x) w'))
              (c :: trace (run handle (k x) w')).
Proof. intros H. rewrite run_Await, H. reflexivity. Qed.

(** Sequencing runs the first program, then the second from where the
    first stopped; the calls come in that order. *)
Lemma run_bind {A B} (p : Prog A) (f : A -> Prog B) (w : World) :
  run handle (bind p f) w
  = let o := run handle p w in
    let o' := run handle (f (result o)) (world o) in
    mkOutcome (result o') (world o') (trace o ++ trace o').
Proof.
  revert w. induction p as [a | c k IH]; intros w.
  - simpl. now destruct (run handle (f a) w).
  - simpl. destruct (handle c w) as [x w']. rewrite IH. reflexivity.
Qed.

(** Logging changes no response. *)
Lemma run_log_then {A} (e : Thrown) (p : Prog A) (w : World) :
  result (run handle (bind (await (logging_error e)) (fun _ => p)) w)
  = result (run handle p (snd (handle (logging_error e) w))).
Proof.
  simpl. destruct (handle (logging_error e) w) as [[] w']. reflexivity.
Qed.

End Run.

End RunProperties.

(** ** [BookingsController] *)

Module BookingsClaims.
Import Models httpCode Effects BookingsController RunProperties.

(** C5: for a caller whose token verifies and an [eventUUID] for which the
    bookings service reports a list, [findEventBookings] answers 200 with
    exactly that list: the controller calls [verifyToken] and
    [findBookingsForEvent] and nothing else, and filters nothing. *)
Theorem findEventBookings_unfiltered {World : Type}
    (handle : Handler (World := World)) (w w1 w2 : World)
    (eventUUID : string) (token : option string) (t : string)
    (jwtClaims : JWTClaims) (reported : list BookingAndEvent) :
  truthy token = Some t ->
  handle (verifyToken t) w = (Resolved jwtClaims, w1) ->
  handle (bookings_findBookingsForEvent eventUUID) w1 = (Resolved reported, w2) ->
  result (run handle (findEventBookings eventUUID token) w) = ok (Bookings reported)
  /\ code (result (run handle (findEventBookings eventUUID token) w)) = 200
  /\ trace (run handle (findEventBookings eventUUID token) w)
     = [verifyToken t; bookings_findBookingsForEvent eventUUID].
Proof.
  intros Htoken Hverify Hfind.
  unfold findEventBookings. rewrite Htoken.
  cbn [bind await].
  rewrite (run_Await_answer handle _ _ _ _ _ Hverify).
  cbn [bind await result trace].
  rewrite (run_Await_answer handle _ _ _ _ _ Hfind).
  cbn. repeat split; reflexivity.
Qed.

(** C5, on the samples: alice asks for the bookings of the gala and also
    receives bob's, which she cannot manage. *)
Lemma findEventBookings_unfiltered_witness :
  result (run Samples.serve (findEventBookings "e-gala" (Some "t-alice")) Samples.world0)
  = ok (Bookings [mkBookingAndEvent "u-alice" Samples.gala;
                  mkBookingAndEvent "u-bob" Samples.gala])
  /\ Samples.canManageBooking Samples.alice "u-bob" "bde-1" = false.
Proof.
  split; [|reflexivity].
  apply (findEventBookings_unfiltered Samples.serve
           Samples.world0 Samples.world0 Samples.world0
           "e-gala" (Some "t-alice") "t-alice" Samples.alice);
    reflexivity.
Defined.

Section Create.
Context {World : Type}.
Variable handle : Handler (World := World).
Variable canManageBooking : JWTClaims -> string -> string -> bool.
Variable canManageEvents : JWTClaims -> string -> bool.
Variable BOOKING_VALIDATOR : gmap string JsValue -> ValidationResult BookingBody.

#[local] Abbreviation create :=
  (BookingsController.create canManageBooking canManageEvents BOOKING_VALIDATOR).

(** The body the validator sees: the request body with [user] and [event]
    overridden by the path parameters. *)
Lemma merged_body_path_parameters (eventUUID userUUID : string)
    (body : option (gmap string JsValue)) :
  let merged :=
    <["event" := JsString eventUUID]>
      (<["user" := JsString userUUID]> (default ∅ body)) in
  merged !! "event" = Some (JsString eventUUID)
  /\ merged !! "user" = Some (JsString userUUID)
  /\ forall k, k <> "event" -> k <> "user" -> merged !! k = default ∅ body !! k.
Proof.
  simpl. split; [|split].
  - apply lookup_insert_eq.
  - rewrite lookup_insert_ne by discriminate. apply lookup_insert_eq.
  - intros k He Hu. rewrite !lookup_insert_ne by congruence. reflexivity.
Qed.

(** What the last step of [create] answers, from the answer of the
    bookings service. *)
Lemma creation_never_forbidden (booking : Booking) (w : World) :
  let o :=
    run handle
      (bind (await (bookings_create booking))
         (fun stored =>
            match stored with
            | Resolved booking => Ret (created (OneBooking booking))
            | Rejected e =>
                if is_bookings_error e BOOKING_EVENT_NOT_EXISTS
                then Ret (badRequest "Specified bde UUID is invalid.")
                else if is_bookings_error e USER_NOT_EXISTS
                then Ret (badRequest "Specified user UUID is invalid.")
                else if is_bookings_error e BOOKING_ALREADY_EXISTS
                then Ret (badRequest "This booking already exists.")
                else
                  bind (await (logging_error e))
                    (fun _ =>
                       Ret (internalServerError
                              "Unable to create booking. Contact an adminstrator or retry later."))
            end)) w in
  (exists rest, trace o = bookings_create booking :: rest
                /\ ~ In DateTime_local rest)
  /\ (forall b w', handle (bookings_create booking) w = (Resolved b, w') ->
       result o = created (OneBooking b)).
Proof.
  cbn [bind await]. rewrite run_Await.
  destruct (handle (bookings_create booking) w) as [[b | e] w'] eqn:Hcreate;
    cbn [fst snd].
  - split.
    + exists []. split; [reflexivity | intros []].
    + intros b' w'' [= <- <-]. reflexivity.
  - split; [|intros b' w'' [=]].
    destruct (is_bookings_error e BOOKING_EVENT_NOT_EXISTS);
      [exists []; split; [reflexivity | intros []]|].
    destruct (is_bookings_error e USER_NOT_EXISTS);
      [exists []; split; [reflexivity | intros []]|].
    destruct (is_bookings_error e BOOKING_ALREADY_EXISTS);
      [exists []; split; [reflexivity | intros []]|].
    exists [logging_error e]. split.
    + cbn [bind await]. rewrite run_Await. reflexivity.
    + intros [H | []]. discriminate H.
Qed.

(** C6: in [create] with a token that verifies, a body that validates, an
    event that exists and [canManageBooking] granted, when [force] is true:
    without [canManageEvents] on the BDE of the event the answer is 403 and
    nothing is created; with it, the clock is never read (so [canBookNow] is
    not consulted), the bookings service is asked to create the booking, and
    its booking comes back with status 201, whatever the booking window of
    the event is. *)
Theorem create_force (w w1 w2 : World)
    (eventUUID userUUID : string) (body : option (gmap string JsValue))
    (token : option string) (t : string) (jwtClaims : JWTClaims)
    (value : BookingBody) (found : Event) :
  truthy token = Some t ->
  handle (verifyToken t) w = (Resolved jwtClaims, w1) ->
  BOOKING_VALIDATOR
    (<["event" := JsString eventUUID]>
       (<["user" := JsString userUUID]> (default ∅ body))) = Valid value ->
  handle (events_findByUUID (event value)) w1 = (Resolved found, w2) ->
  canManageBooking jwtClaims (user value) (bdeUUID found) = true ->
  force value = Some true ->
  let o := run handle (create eventUUID userUUID body token) w in
  let booking := mkBooking (event value) (user value) in
  (canManageEvents jwtClaims (bdeUUID found) = false ->
   code (result o) = 403
   /\ trace o = [verifyToken t; events_findByUUID (event value)])
  /\ (canManageEvents jwtClaims (bdeUUID found) = true ->
      ~ In DateTime_local (trace o)
      /\ (exists rest,
            trace o = verifyToken t :: events_findByUUID (event value)
                      :: bookings_create booking :: rest)
      /\ (forall b w3,
            handle (bookings_create booking) w2 = (Resolved b, w3) ->
            result o = created (OneBooking b))).
Proof.
  intros Htoken Hverify Hvalid Hfound Hbooking Hforce. cbv zeta.
  unfold BookingsController.create. rewrite Htoken.
  cbn [bind await].
  rewrite (run_Await_answer handle _ _ _ _ _ Hverify).
  cbn [result trace]. rewrite Hvalid.
  cbn [bind await booking_eventUUID booking_userUUID].
  rewrite (run_Await_answer handle _ _ _ _ _ Hfound).
  cbn [result trace]. rewrite Hbooking, Hforce. cbn [negb].
  split; intros Hevents; rewrite Hevents; cbn [negb andb bind].
  - split; reflexivity.
  - destruct (creation_never_forbidden (mkBooking (event value) (user value)) w2)
      as ((rest & Htrace & Hclock) & Hresult).
    cbv zeta in Htrace, Hresult. cbn [bind await] in Htrace, Hresult.
    split; [|split].
    + rewrite Htrace. intros [H | [H | [H | H]]]; try discriminate H.
      now apply Hclock.
    + exists rest. now rewrite Htrace.
    + exact Hresult.
Qed.

End Create.

(** C6, on the samples, on 2020-03-15, a week after the booking window of
    the gala closed: alice forcing her own booking is refused; a member of
    the staff of bde-1 forcing a booking for carol gets it created. *)
Lemma create_force_witness :
  let forced := Some ({["force" := JsBoolean true]} : gmap string JsValue) in
  let create :=
    BookingsController.create Samples.canManageBooking Samples.canManageEvents
      Samples.BOOKING_VALIDATOR in
  canBookNow_at (Instant (Samples.clock Samples.world0)) Samples.gala = false
  /\ code (result (run Samples.serve
                     (create "e-gala" "u-alice" forced (Some "t-alice"))
                     Samples.world0)) = 403
  /\ result (run Samples.serve
               (create "e-gala" "u-carol" forced (Some "t-staff-1"))
               Samples.world0)
     = created (OneBooking (mkBooking "e-gala" "u-carol")).
Proof.
  cbv zeta. split; [reflexivity|]. split.
  - apply (create_force Samples.serve
             Samples.canManageBooking Samples.canManageEvents
             Samples.BOOKING_VALIDATOR
             Samples.world0 Samples.world0 Samples.world0
             "e-gala" "u-alice" (Some {["force" := JsBoolean true]})
             (Some "t-alice") "t-alice" Samples.alice
             (mkBookingBody "u-alice" "e-gala" (Some true)) Samples.gala);
      vm_compute; reflexivity.
  - eapply (create_force Samples.serve
              Samples.canManageBooking Samples.canManageEvents
              Samples.BOOKING_VALIDATOR
              Samples.world0 Samples.world0 Samples.world0
              "e-gala" "u-carol" (Some {["force" := JsBoolean true]})
              (Some "t-staff-1") "t-staff-1" Samples.staff1
              (mkBookingBody "u-carol" "e-gala" (Some true)) Samples.gala);
      vm_compute; reflexivity.
Defined.

(** Comparisons of two valid instants are comparisons of timestamps. *)
Lemma gt_Instant (a b : Z) : gt (Instant a) (Instant b) = true <-> b < a.
Proof. unfold gt, lt. simpl. apply Z.ltb_lt. Qed.

Lemma lt_Instant (a b : Z) : lt (Instant a) (Instant b) = true <-> a < b.
Proof. unfold lt. simpl. apply Z.ltb_lt. Qed.

(** C9: [canBookNow] reads the clock and answers true unless
    [bookingStart] is set and strictly after now, or [bookingEnd] is set and
    strictly before now.  With neither bound it answers true; an absent
    bound leaves the decision to the other one. *)
Theorem canBookNow_window (event : Event) (now : DateTime) :
  (canBookNow_at now event = false
   <-> (exists start, bookingStart event = Some start /\ gt start now = true)
       \/ (exists end_, bookingEnd event = Some end_ /\ lt end_ now = true))
  /\ (bookingStart event = None /\ bookingEnd event = None ->
      canBookNow_at now event = true)
  /\ (bookingStart event = None ->
      canBookNow_at now event
      = negb (set_and (bookingEnd event) (fun end_ => lt end_ now)))
  /\ (bookingEnd event = None ->
      canBookNow_at now event
      = negb (set_and (bookingStart event) (fun start => gt start now)))
  /\ (forall (World : Type) (handle : Handler (World := World)) (w : World),
        result (run handle (canBookNow event) w)
        = canBookNow_at (fst (handle DateTime_local w)) event
        /\ trace (run handle (canBookNow event) w) = [DateTime_local]).
Proof.
  unfold canBookNow_at, set_and.
  split; [|split; [|split; [|split]]].
  - destruct (bookingStart event) as [start|], (bookingEnd event) as [end_|].
    + destruct (gt start now) eqn:Hs; [split; eauto|].
      destruct (lt end_ now) eqn:He; [split; eauto|].
      split; [discriminate|]. intros [(x & [= <-] & Hx) | (y & [= <-] & Hy)]; congruence.
    + destruct (gt start now) eqn:Hs; [split; eauto|].
      split; [discriminate|]. intros [(x & [= <-] & Hx) | (y & [=] & _)]; congruence.
    + destruct (lt end_ now) eqn:He; [split; eauto|].
      split; [discriminate|]. intros [(x & [=] & _) | (y & [= <-] & Hy)]; congruence.
    + split; [discriminate|]. intros [(x & [=] & _) | (y & [=] & _)].
  - intros [-> ->]. reflexivity.
  - intros ->. now destruct (bookingEnd event) as [end_|]; [destruct (lt end_ now)|].
  - intros ->. now destruct (bookingStart event) as [start|]; [destruct (gt start now)|].
  - intros World handle w. unfold canBookNow. cbn [bind await].
    rewrite run_Await. split; reflexivity.
Qed.

(** C9, on instants: one hour is 3600000 ms.  A window opening in one hour
    is closed; a window from one hour ago to one hour ahead is open; an
    event without bounds is open. *)
Lemma canBookNow_window_witness :
  let now := 1584230400000 in
  let hour := 3600000 in
  canBookNow_at (Instant now)
    (mkEvent "e" "b" "n" false (Some (Instant (now + hour))) None None) = false
  /\ canBookNow_at (Instant now)
       (mkEvent "e" "b" "n" false
                (Some (Instant (now - hour))) (Some (Instant (now + hour))) None) = true
  /\ canBookNow_at (Instant now) (mkEvent "e" "b" "n" false None None None) = true.
Proof.
  cbv zeta. split; [|split].
  - apply (proj1 (canBookNow_window _ _)). left.
    eexists. split; [reflexivity|]. now apply gt_Instant.
  - apply not_false_iff_true. intros Hclosed.
    apply (proj1 (canBookNow_window _ _)) in Hclosed.
    destruct Hclosed as [(x & [= <-] & Hx) | (y & [= <-] & Hy)];
      [apply gt_Instant in Hx | apply lt_Instant in Hy]; lia.
  - now apply (proj1 (proj2 (canBookNow_window _ _))).
Defined.

End BookingsClaims.

(** ** [EventsController] *)

Module EventsClaims.
Import Models httpCode Effects EventsController RunProperties.

Section FindAll.
Context {World : Type}.
Variable handle : Handler (World := World).
Variable canManageEvents : JWTClaims -> string -> bool.
Variable EVENT_VALIDATOR :
  option (gmap string JsValue) -> ValidationResult EventBodyRequest.
Variable fromISO : string -> DateTime.

(** The filter of [findAll] keeps the events that are not drafts and those
    the authenticated caller can manage. *)
Lemma visible_iff (jwtClaims : option JWTClaims) (event : Event) :
  visible canManageEvents jwtClaims event = true
  <-> isDraft event = false
      \/ exists claims, jwtClaims = Some claims
                        /\ canManageEvents claims (bdeUUID event) = true.
Proof.
  unfold visible. rewrite orb_true_iff, negb_true_iff.
  split; intros [Hd | Hm]; auto.
  - destruct jwtClaims as [claims|]; [eauto | discriminate].
  - destruct Hm as (claims & -> & Hm). auto.
Qed.

(** The caller of [findAll] as the filter sees it: the claims of the token
    when one is given and verifies (once the events are fetched), nobody
    otherwise. *)
Lemma findAll_run (token : option string) (w w1 : World) (events : list Event) :
  handle events_findAll w = (Resolved events, w1) ->
  result (run handle (findAll canManageEvents token) w)
  = ok (Events
          (List.filter
             (visible canManageEvents
                match truthy token with
                | Some t =>
                    match fst (handle (verifyToken t) w1) with
                    | Resolved claims => Some claims
                    | Rejected _ => None
                    end
                | None => None
                end)
             events)).
Proof.
  intros Hall. unfold findAll. cbn [bind await].
  rewrite (run_Await_answer handle _ _ _ _ _ Hall). cbn [result].
  destruct (truthy token) as [t|]; cbn [bind await]; [|reflexivity].
  rewrite run_Await. cbn [result].
  destruct (fst (handle (verifyToken t) w1)); reflexivity.
Qed.

(** C7: when the events service returns a list of events, [findAll] answers
    200 with exactly the events of that list, in order, that are not drafts
    or that the authenticated caller can manage ([canManageEvents] on the
    BDE of the event).  A caller is authenticated when a token is given and
    verifies.  So a draft is left out for an unauthenticated caller, and kept
    for an authenticated caller who can manage the events of its BDE. *)
Theorem findAll_visible (token : option string) (w w1 : World)
    (events : list Event) :
  handle events_findAll w = (Resolved events, w1) ->
  let jwtClaims :=
    match truthy token with
    | Some t =>
        match fst (handle (verifyToken t) w1) with
        | Resolved claims => Some claims
        | Rejected _ => None
        end
    | None => None
    end in
  exists returned,
    result (run handle (findAll canManageEvents token) w) = ok (Events returned)
    /\ code (result (run handle (findAll canManageEvents token) w)) = 200
    /\ returned = List.filter (visible canManageEvents jwtClaims) events
    /\ (forall event,
          In event returned
          <-> In event events
              /\ (isDraft event = false
                  \/ exists claims, jwtClaims = Some claims
                                    /\ canManageEvents claims (bdeUUID event) = true))
    /\ (jwtClaims = None ->
        forall event, isDraft event = true -> ~ In event returned)
    /\ (forall claims event,
          jwtClaims = Some claims ->
          In event events ->
          canManageEvents claims (bdeUUID event) = true ->
          In event returned).
Proof.
  intros Hall jwtClaims.
  exists (List.filter (visible canManageEvents jwtClaims) events).
  assert (Hin : forall event,
             In event (List.filter (visible canManageEvents jwtClaims) events)
             <-> In event events
                 /\ (isDraft event = false
                     \/ exists claims, jwtClaims = Some claims
                                       /\ canManageEvents claims (bdeUUID event) = true)).
  { intros event. rewrite filter_In, visible_iff. reflexivity. }
  rewrite (findAll_run token w w1 events Hall). fold jwtClaims.
  split; [reflexivity|]. split; [reflexivity|]. split; [reflexivity|].
  split; [exact Hin|]. split.
  - intros Hnone event Hdraft Hret. apply Hin in Hret.
    destruct Hret as [_ [Hpub | (claims & Hsome & _)]]; congruence.
  - intros claims event Hsome Hev Hman. apply Hin. eauto.
Qed.

End FindAll.

(** C7, on the samples: without token only the gala is listed; the staff of
    bde-1 also sees the draft of bde-1, not the draft of bde-2. *)
Lemma findAll_visible_witness :
  result (run Samples.serve (findAll Samples.canManageEvents None) Samples.world0)
  = ok (Events [Samples.gala])
  /\ result (run Samples.serve (findAll Samples.canManageEvents (Some "t-staff-1"))
               Samples.world0)
     = ok (Events [Samples.gala; Samples.draft1]).
Proof.
  split.
  - destruct (findAll_visible Samples.serve Samples.canManageEvents None
                Samples.world0 Samples.world0 (Samples.events Samples.world0) eq_refl)
      as (returned & -> & _ & -> & _).
    reflexivity.
  - destruct (findAll_visible Samples.serve Samples.canManageEvents (Some "t-staff-1")
                Samples.world0 Samples.world0 (Samples.events Samples.world0) eq_refl)
      as (returned & -> & _ & -> & _).
    reflexivity.
Defined.

Section Write.
Context {World : Type}.
Variable handle : Handler (World := World).
Variable canManageEvents : JWTClaims -> string -> bool.
Variable EVENT_VALIDATOR :
  option (gmap string JsValue) -> ValidationResult EventBodyRequest.
Variable fromISO : string -> DateTime.

#[local] Abbreviation create :=
  (EventsController.create canManageEvents EVENT_VALIDATOR fromISO).
#[local] Abbreviation patchEvent :=
  (EventsController.patchEvent canManageEvents EVENT_VALIDATOR fromISO).
#[local] Abbreviation assignDates := (EventsController.assignDates fromISO).

(** [end <= start] excludes [start < end]. *)
Lemma le_not_lt (a b : DateTime) : le b a = true -> lt a b = false.
Proof.
  unfold le, lt. destruct (valueOf a), (valueOf b); try discriminate.
  intros H. apply Z.leb_le in H. apply Z.ltb_ge. lia.
Qed.

(** [areBookingDatesWellOrdered] in words. *)
Lemma areBookingDatesWellOrdered_iff (event : Event) :
  areBookingDatesWellOrdered event = true
  <-> forall start end_,
        bookingStart event = Some start ->
        bookingEnd event = Some end_ ->
        lt start end_ = true.
Proof.
  unfold areBookingDatesWellOrdered.
  destruct (bookingStart event) as [start|], (bookingEnd event) as [end_|];
    split; try discriminate; try reflexivity; intros H.
  - intros ? ? [= <-] [= <-]. exact H.
  - now apply H.
Qed.

(** The last step of [create]: its calls, after [events_create]. *)
Lemma create_last_step_trace (event : Event) (w : World) :
  exists rest,
    trace (run handle
             (bind (await (events_create event))
                (fun stored =>
                   match stored with
                   | Resolved event => Ret (created (OneEvent event))
                   | Rejected e =>
                       if is_events_error e BDE_UUID_NOT_EXISTS
                       then Ret (badRequest "Given bde UUID does not exist.")
                       else
                         bind (await (logging_error e))
                           (fun _ =>
                              Ret (internalServerError
                                     "Unable to create an event. Contact an administrator or retry later."))
                   end)) w)
    = events_create event :: rest
    /\ forall e, ~ In (events_create e) rest.
Proof.
  cbn [bind await]. rewrite run_Await.
  destruct (fst (handle (events_create event) w)) as [stored | e]; cbn [trace].
  - exists []. split; [reflexivity | intros e []].
  - destruct (is_events_error e BDE_UUID_NOT_EXISTS).
    + exists []. split; [reflexivity | intros e' []].
    + exists [logging_error e]. split.
      * cbn [bind await]. rewrite run_Await. reflexivity.
      * intros e' [H | []]. discriminate H.
Qed.

(** Every event [create] hands to the events service passed the date-order
    check. *)
Lemma create_hands_well_ordered (body : option (gmap string JsValue))
    (token : option string) (w : World) (event : Event) :
  In (events_create event) (trace (run handle (create body token) w)) ->
  areBookingDatesWellOrdered event = true.
Proof.
  unfold EventsController.create.
  destruct (truthy token) as [t|]; [|intros []].
  cbn [bind await]. rewrite run_Await. cbn [trace].
  destruct (fst (handle (verifyToken t) w)) as [claims | e];
    [|intros [H | []]; discriminate H].
  destruct (EVENT_VALIDATOR body) as [value | message];
    [|intros [H | []]; discriminate H].
  cbn [bind await]. rewrite run_Await. cbn [trace].
  set (built := assignDates _ value).
  destruct (areBookingDatesWellOrdered built) eqn:Hordered; cbn [negb];
    [|intros [H | [H | []]]; discriminate H].
  destruct (canManageEvents claims (body_bde value)); cbn [negb];
    [|intros [H | [H | []]]; discriminate H].
  destruct (create_last_step_trace built (snd (handle uuid_v4 (snd (handle (verifyToken t) w)))))
    as (rest & Htrace & Hrest).
  cbn [bind await] in Htrace. rewrite Htrace.
  intros [H | [H | [H | H]]]; try discriminate H.
  - injection H as <-. exact Hordered.
  - now apply Hrest in H.
Qed.

(** C8: in [create] with a token that verifies and a body that validates
    and gives both [bookingStart] and [bookingEnd] with
    [bookingEnd <= bookingStart], the answer is 400 whatever
    [canManageEvents] says of the caller: the date order is checked before
    the permission, and the events service is not called.  So every event
    handed to the events service has, when both are set, its [bookingStart]
    strictly before its [bookingEnd]. *)
Theorem create_dates_before_permission (body : option (gmap string JsValue))
    (token : option string) (w : World) :
  let o := run handle (create body token) w in
  (forall t jwtClaims w1 value iso_start iso_end,
      truthy token = Some t ->
      handle (verifyToken t) w = (Resolved jwtClaims, w1) ->
      EVENT_VALIDATOR body = Valid value ->
      truthy (body_bookingStart value) = Some iso_start ->
      truthy (body_bookingEnd value) = Some iso_end ->
      le (fromISO iso_end) (fromISO iso_start) = true ->
      result o
      = badRequest "Booking end date must come (strictly) after booking beginning date."
      /\ code (result o) = 400
      /\ trace o = [verifyToken t; uuid_v4])
  /\ (forall event start end_,
        In (events_create event) (trace o) ->
        bookingStart event = Some start ->
        bookingEnd event = Some end_ ->
        lt start end_ = true).
Proof.
  cbv zeta. split.
  - intros t jwtClaims w1 value iso_start iso_end
           Htoken Hverify Hvalid Hstart Hend Hle.
    unfold EventsController.create. rewrite Htoken.
    cbn [bind await].
    rewrite (run_Await_answer handle _ _ _ _ _ Hverify).
    cbn [result trace]. rewrite Hvalid.
    cbn [bind await]. rewrite run_Await. cbn [result trace].
    unfold areBookingDatesWellOrdered, EventsController.assignDates, assignDate.
    cbn [bookingStart bookingEnd]. rewrite Hstart, Hend.
    rewrite (le_not_lt _ _ Hle). cbn [negb].
    repeat split; reflexivity.
  - intros event start end_ Hin.
    apply create_hands_well_ordered in Hin.
    now apply areBookingDatesWellOrdered_iff.
Qed.

(** The last step of [patchEvent] never answers 403. *)
Lemma patch_last_step (event : Event) (w : World) :
  let o :=
    run handle
      (bind (await (events_update event))
         (fun stored =>
            match stored with
            | Resolved event => Ret (ok (OneEvent event))
            | Rejected e =>
                if is_events_error e EVENT_NOT_EXISTS
                then Ret (notFound ("No event with uuid " ++ eventUUID event ++ " exists."))
                else if is_events_error e BDE_UUID_NOT_EXISTS
                then Ret (badRequest ("No BDE with UUID " ++ bdeUUID event ++ " exists."))
                else
                  bind (await (logging_error e))
                    (fun _ =>
                       Ret (internalServerError
                              "Unable to patch event. Contact an administrator or retry later."))
            end)) w in
  code (result o) <> 403
  /\ (exists rest, trace o = events_update event :: rest)
  /\ (forall updated w',
        handle (events_update event) w = (Resolved updated, w') ->
        result o = ok (OneEvent updated)).
Proof.
  cbn [bind await]. rewrite run_Await.
  destruct (handle (events_update event) w) as [[updated | e] w'];
    cbn [fst snd result trace].
  - split; [discriminate|]. split; [eauto|].
    intros u w'' [= <- <-]. reflexivity.
  - split; [|split; [eauto | intros u w'' [=]]].
    destruct (is_events_error e EVENT_NOT_EXISTS); [discriminate|].
    destruct (is_events_error e BDE_UUID_NOT_EXISTS); [discriminate|].
    cbn [bind await]. rewrite run_Await. discriminate.
Qed.

(** C10 (amended): in [patchEvent] with a token that verifies, a body that
    validates and whose booking dates pass the order check, and a stored
    event, the answer is 403 unless [canManageEvents] holds for the BDE of
    the stored event and, when the [bde] of the body differs from it, for
    the new BDE too; when both hold the events service is asked to update
    the event and the answer is not 403. *)
Theorem patchEvent_both_BDEs (eventUUID : string)
    (body : option (gmap string JsValue)) (token : option string)
    (w w1 w2 : World) (t : string) (jwtClaims : JWTClaims)
    (value : EventBodyRequest) (fetchedEvent : Event) :
  truthy token = Some t ->
  handle (verifyToken t) w = (Resolved jwtClaims, w1) ->
  EVENT_VALIDATOR body = Valid value ->
  let event :=
    assignDates
      (mkEvent eventUUID (body_bde value) (body_name value) (body_isDraft value)
               None None None)
      value in
  areBookingDatesWellOrdered event = true ->
  handle (events_findByUUID eventUUID) w1 = (Resolved fetchedEvent, w2) ->
  let o := run handle (patchEvent eventUUID body token) w in
  let allowed :=
    canManageEvents jwtClaims (bdeUUID fetchedEvent) = true
    /\ (body_bde value <> bdeUUID fetchedEvent ->
        canManageEvents jwtClaims (body_bde value) = true) in
  (code (result o) = 403 <-> ~ allowed)
  /\ (~ allowed ->
      result o = forbidden "You do not have the permission to patch this event."
      /\ trace o = [verifyToken t; events_findByUUID eventUUID])
  /\ (allowed ->
      (exists rest,
          trace o = verifyToken t :: events_findByUUID eventUUID
                    :: events_update event :: rest)
      /\ forall updated w3,
          handle (events_update event) w2 = (Resolved updated, w3) ->
          result o = ok (OneEvent updated)).
Proof.
  intros Htoken Hverify Hvalid event Hordered Hfetch. cbv zeta.
  unfold EventsController.patchEvent. rewrite Htoken.
  cbn [bind await].
  rewrite (run_Await_answer handle _ _ _ _ _ Hverify).
  cbn [result trace]. rewrite Hvalid.
  fold event. rewrite Hordered. cbn [negb bind await].
  change (Models.eventUUID event) with eventUUID.
  change (bdeUUID event) with (body_bde value).
  rewrite (run_Await_answer handle _ _ _ _ _ Hfetch).
  cbn [result trace].
  destruct (patch_last_step event w2) as (Hcode & (rest & Htrace) & Hresult).
  cbv zeta in Hcode, Htrace, Hresult.
  cbn [bind await] in Hcode, Htrace, Hresult.
  change (Models.eventUUID event) with eventUUID in Hcode, Htrace, Hresult.
  change (bdeUUID event) with (body_bde value) in Hcode, Htrace, Hresult.
  destruct (String.eqb (body_bde value) (bdeUUID fetchedEvent)) eqn:Hsame;
    [apply String.eqb_eq in Hsame | apply String.eqb_neq in Hsame]; cbn [negb andb].
  - destruct (canManageEvents jwtClaims (bdeUUID fetchedEvent)) eqn:Hold; cbn [negb].
    + assert (Hallowed : true = true /\ (body_bde value <> bdeUUID fetchedEvent ->
                                        canManageEvents jwtClaims (body_bde value) = true))
        by (split; [reflexivity | intros Hne; contradiction]).
      split; [|split].
      * split; [intros H; contradiction | intros H; contradiction].
      * intros H; contradiction.
      * intros _. split; [exists rest; now rewrite Htrace | exact Hresult].
    + split; [|split].
      * split; [intros _ [H _]; discriminate | reflexivity].
      * intros _. split; reflexivity.
      * intros [H _]; discriminate.
  - destruct (canManageEvents jwtClaims (body_bde value)) eqn:Hnew; cbn [negb].
    + destruct (canManageEvents jwtClaims (bdeUUID fetchedEvent)) eqn:Hold; cbn [negb].
      * assert (Hallowed : true = true /\ (body_bde value <> bdeUUID fetchedEvent ->
                                          true = true))
          by (split; [reflexivity | intros _; reflexivity]).
        split; [|split].
        -- split; [intros H; contradiction | intros H; contradiction].
        -- intros H; contradiction.
        -- intros _. split; [exists rest; now rewrite Htrace | exact Hresult].
      * split; [|split].
        -- split; [intros _ [H _]; discriminate | reflexivity].
        -- intros _. split; reflexivity.
        -- intros [H _]; discriminate.
    + split; [|split].
      * split; [intros _ [_ H]; specialize (H Hsame); discriminate | reflexivity].
      * intros _. split; reflexivity.
      * intros [_ H]; specialize (H Hsame); discriminate.
Qed.

End Write.

(** C8, on the samples: the window of the body ends before it starts; the
    staff of bde-1, who may create events of bde-1, and alice, who may not,
    both get 400. *)
Lemma create_dates_before_permission_witness :
  let create :=
    EventsController.create Samples.canManageEvents Samples.EVENT_VALIDATOR
      Samples.fromISO in
  Samples.canManageEvents Samples.staff1 "bde-1" = true
  /\ Samples.canManageEvents Samples.alice "bde-1" = false
  /\ code (result (run Samples.serve
                     (create (Some Samples.backwards_body) (Some "t-staff-1"))
                     Samples.world0)) = 400
  /\ code (result (run Samples.serve
                     (create (Some Samples.backwards_body) (Some "t-alice"))
                     Samples.world0)) = 400.
Proof.
  cbv zeta. split; [reflexivity|]. split; [reflexivity|]. split.
  - eapply (proj1 (create_dates_before_permission Samples.serve
                     Samples.canManageEvents Samples.EVENT_VALIDATOR Samples.fromISO
                     (Some Samples.backwards_body) (Some "t-staff-1") Samples.world0)
                  "t-staff-1" Samples.staff1 Samples.world0);
      vm_compute; reflexivity.
  - eapply (proj1 (create_dates_before_permission Samples.serve
                     Samples.canManageEvents Samples.EVENT_VALIDATOR Samples.fromISO
                     (Some Samples.backwards_body) (Some "t-alice") Samples.world0)
                  "t-alice" Samples.alice Samples.world0);
      vm_compute; reflexivity.
Defined.

(** C10, as stated, fails: alice, who cannot manage the events of bde-1,
    patches the stored gala with a body that validates but whose booking
    window ends before it starts; the answer is 400, not 403. *)
Lemma patchEvent_backwards_dates_not_forbidden :
  Samples.serve (verifyToken "t-alice") Samples.world0
  = (Resolved Samples.alice, Samples.world0)
  /\ (exists value, Samples.EVENT_VALIDATOR (Some Samples.backwards_body) = Valid value)
  /\ Samples.serve (events_findByUUID "e-gala") Samples.world0
     = (Resolved Samples.gala, Samples.world0)
  /\ Samples.canManageEvents Samples.alice (bdeUUID Samples.gala) = false
  /\ code (result (run Samples.serve
                     (EventsController.patchEvent Samples.canManageEvents
                        Samples.EVENT_VALIDATOR Samples.fromISO
                        "e-gala" (Some Samples.backwards_body) (Some "t-alice"))
                     Samples.world0)) = 400.
Proof.
  split; [reflexivity|]. split; [eexists; vm_compute; reflexivity|].
  split; [reflexivity|]. split; [reflexivity|].
  vm_compute. reflexivity.
Qed.

(** C10, on the samples, patching the gala of bde-1 with well-ordered
    dates: alice is refused; the staff of bde-1 is refused when the body
    moves the event to bde-2, and updates the event when it stays in bde-1. *)
Lemma patchEvent_both_BDEs_witness :
  let patchEvent :=
    EventsController.patchEvent Samples.canManageEvents Samples.EVENT_VALIDATOR
      Samples.fromISO "e-gala" in
  code (result (run Samples.serve
                  (patchEvent (Some (Samples.ordered_body "bde-1")) (Some "t-alice"))
                  Samples.world0)) = 403
  /\ code (result (run Samples.serve
                     (patchEvent (Some (Samples.ordered_body "bde-2")) (Some "t-staff-1"))
                     Samples.world0)) = 403
  /\ code (result (run Samples.serve
                     (patchEvent (Some (Samples.ordered_body "bde-1")) (Some "t-staff-1"))
                     Samples.world0)) = 200.
Proof.
  cbv zeta. split; [|split].
  - eapply (patchEvent_both_BDEs Samples.serve
              Samples.canManageEvents Samples.EVENT_VALIDATOR Samples.fromISO
              "e-gala" (Some (Samples.ordered_body "bde-1")) (Some "t-alice")
              Samples.world0 Samples.world0 Samples.world0 "t-alice" Samples.alice);
      [vm_compute; reflexivity .. |].
    intros [H _]. vm_compute in H. discriminate H.
  - eapply (patchEvent_both_BDEs Samples.serve
              Samples.canManageEvents Samples.EVENT_VALIDATOR Samples.fromISO
              "e-gala" (Some (Samples.ordered_body "bde-2")) (Some "t-staff-1")
              Samples.world0 Samples.world0 Samples.world0 "t-staff-1" Samples.staff1);
      [vm_compute; reflexivity .. |].
    intros [_ H]. vm_compute in H.
    assert (Hne : "bde-2" <> "bde-1") by discriminate.
    specialize (H Hne). discriminate H.
  - assert (Hupdated :
      exists updated,
        result (run Samples.serve
                  (EventsController.patchEvent Samples.canManageEvents
                     Samples.EVENT_VALIDATOR Samples.fromISO "e-gala"
                     (Some (Samples.ordered_body "bde-1")) (Some "t-staff-1"))
                  Samples.world0) = ok (OneEvent updated)).
    { eexists.
      eapply (patchEvent_both_BDEs Samples.serve
                Samples.canManageEvents Samples.EVENT_VALIDATOR Samples.fromISO
                "e-gala" (Some (Samples.ordered_body "bde-1")) (Some "t-staff-1")
                Samples.world0 Samples.world0 Samples.world0 "t-staff-1" Samples.staff1);
        first [ vm_compute; reflexivity
              | split; [vm_compute; reflexivity
                       | intros Hne; exfalso; apply Hne; vm_compute; reflexivity] ]. }
    destruct Hupdated as (updated & ->). reflexivity.
Defined.

End EventsClaims.

(** ** More on the permission model *)

Module PermissionExtras.
Import PermissionModel PermissionProperties Samples.

(** *** [Math.max] over two lists *)

Lemma Math_max_start (xs : list Z) (x y : Z) :
  Math_max (Z.max x y) xs = Z.max y (Math_max x xs).
Proof.
  unfold Math_max. revert x y.
  induction xs as [|z zs IH]; intros x y; simpl; [lia|].
  rewrite <- (IH (Z.max x z) y). f_equal. lia.
Qed.

Lemma Math_max_app (xs ys : list Z) (x : Z) :
  Math_max x (xs ++ ys) = Z.max (Math_max x xs) (Math_max x ys).
Proof.
  pose proof (Math_max_lower xs x) as Hlow.
  transitivity (Math_max (Z.max x (Math_max x xs)) ys).
  - unfold Math_max at 1. rewrite fold_left_app.
    change (Math_max (Math_max x xs) ys = Math_max (Z.max x (Math_max x xs)) ys).
    f_equal. lia.
  - apply Math_max_start.
Qed.

Lemma Math_max_bounded (xs : list Z) (x b : Z) :
  x <= b -> (forall y, In y xs -> y <= b) -> Math_max x xs <= b.
Proof.
  intros Hx Hxs.
  destruct (Math_max_attained xs x) as [-> | Hin]; [exact Hx | now apply Hxs].
Qed.

(** *** [includes_name] *)

Lemma includes_name_In (names : list string) (n : string) :
  includes_name names n = true <-> In n names.
Proof.
  unfold includes_name. rewrite existsb_exists. split.
  - intros (m & Hin & Heq). apply String.eqb_eq in Heq. now subst.
  - intros Hin. exists n. split; [assumption | apply String.eqb_refl].
Qed.

(** Entries of a list whose names are pairwise distinct are told apart by
    their names. *)
Lemma unique_names_injective (values : list Permission) (p q : Permission) :
  List.NoDup (map name values) ->
  In p values -> In q values -> name p = name q -> p = q.
Proof.
  induction values as [|v vs IH]; intros Hnodup Hp Hq Hname; [contradiction|].
  simpl in Hnodup. apply List.NoDup_cons_iff in Hnodup. destruct Hnodup as [Hfresh Hnodup].
  destruct Hp as [<- | Hp], Hq as [<- | Hq].
  - reflexivity.
  - exfalso. apply Hfresh. rewrite Hname. now apply in_map.
  - exfalso. apply Hfresh. rewrite <- Hname. now apply in_map.
  - now apply IH.
Qed.

(** Listing the same catalog names selects the same entries. *)
Lemma permissionsFromStrings_ext (values : list Permission)
    (names names' : list string) :
  (forall p, In p values -> (In (name p) names <-> In (name p) names')) ->
  permissionsFromStrings values names = permissionsFromStrings values names'.
Proof.
  intros Hsame. unfold permissionsFromStrings.
  apply filter_ext_in. intros p Hp.
  destruct (includes_name names (name p)) eqn:H1,
           (includes_name names' (name p)) eqn:H2; try reflexivity.
  - apply includes_name_In, (Hsame p Hp), includes_name_In in H1. congruence.
  - apply includes_name_In, (Hsame p Hp), includes_name_In in H2. congruence.
Qed.

(** X1: [canAddUser] is true exactly when source holds ALL, or holds
    ADD_USER and belongs to the BDE the user is added to.  So ALL adds to
    any BDE, ADD_USER alone never adds to another BDE, and without either
    permission nobody adds anyone. *)
Theorem canAddUser_scope (Permissions : PermissionsCatalog)
    (source : Subject) (bde : string) :
  (canAddUser Permissions source bde = true
   <-> includes (permissions source) (ALL Permissions) = true
       \/ (includes (permissions source) (ADD_USER Permissions) = true
           /\ bdeUUID source = bde))
  /\ (includes (permissions source) (ALL Permissions) = false ->
      bdeUUID source <> bde ->
      canAddUser Permissions source bde = false).
Proof.
  unfold canAddUser.
  destruct (includes (permissions source) (ALL Permissions)) eqn:Hall.
  - split; [split; auto | discriminate].
  - destruct (includes (permissions source) (ADD_USER Permissions)) eqn:Hadd;
      cbn [negb].
    + split.
      * rewrite String.eqb_eq. split; [auto|].
        intros [H | [_ H]]; [discriminate | exact H].
      * intros _ Hne. now apply String.eqb_neq.
    + split; [|reflexivity].
      split; [discriminate|]. intros [H | [H _]]; discriminate.
Qed.

(** X2: two subjects with the same list of permissions cannot manage each
    other's permissions, whatever their BDEs; in particular nobody manages
    their own permissions, ALL or not. *)
Theorem canManagePermissions_peers (Permissions : PermissionsCatalog)
    (source target : Subject) :
  (permissions source = permissions target ->
   canManagePermissions Permissions source target = false)
  /\ canManagePermissions Permissions source source = false.
Proof.
  assert (Hpeers : forall s t, permissions s = permissions t ->
                               canManagePermissions Permissions s t = false).
  { intros s t Hsame.
    rewrite canManagePermissions_no_bypass.
    - unfold findPermissionLevel. rewrite Hsame.
      rewrite Z.ltb_irrefl. now rewrite andb_false_r.
    - unfold bypass. rewrite Hsame.
      now destruct (includes (permissions t) (ALL Permissions)). }
  split; [apply Hpeers | now apply Hpeers].
Qed.

(** X3: among subjects that do not hold ALL, [canManagePermissions] is a
    strict order: if source manages target then target does not manage
    source, and if moreover target manages a third subject then so does
    source. *)
Theorem canManagePermissions_strict_order (Permissions : PermissionsCatalog)
    (source target third : Subject) :
  includes (permissions source) (ALL Permissions) = false ->
  includes (permissions target) (ALL Permissions) = false ->
  canManagePermissions Permissions source target = true ->
  canManagePermissions Permissions target source = false
  /\ (canManagePermissions Permissions target third = true ->
      canManagePermissions Permissions source third = true).
Proof.
  intros Hs Ht.
  assert (Hby : forall a b, includes (permissions a) (ALL Permissions) = false ->
                            bypass Permissions a b = false).
  { intros a b Ha. unfold bypass. now rewrite Ha. }
  rewrite !canManagePermissions_no_bypass by now apply Hby.
  intros Hst. apply andb_true_iff in Hst. destruct Hst as [Hst Hlvl].
  apply andb_true_iff in Hst. destruct Hst as [Hmp Hbde].
  apply Z.ltb_lt in Hlvl. apply String.eqb_eq in Hbde.
  split.
  - replace (Z.ltb (findPermissionLevel source) (findPermissionLevel target))
      with false by (symmetry; apply Z.ltb_ge; lia).
    now rewrite andb_false_r.
  - intros Htu. apply andb_true_iff in Htu. destruct Htu as [Htu Hlvl'].
    apply andb_true_iff in Htu. destruct Htu as [_ Hbde'].
    apply Z.ltb_lt in Hlvl'. apply String.eqb_eq in Hbde'.
    rewrite Hmp, Hbde, Hbde', String.eqb_refl. simpl.
    apply Z.ltb_lt. lia.
Qed.

(** X3, on the samples of bde-1: a senior (level 9) manages a manager
    (level 3), who manages a member (level 1). *)
Lemma canManagePermissions_strict_order_witness :
  canManagePermissions catalog (manager "bde-1") (senior "bde-1") = false
  /\ canManagePermissions catalog (senior "bde-1") (member "bde-1") = true.
Proof.
  destruct (canManagePermissions_strict_order catalog
              (senior "bde-1") (manager "bde-1") (member "bde-1")
              eq_refl eq_refl eq_refl) as [Hback Htrans].
  split; [exact Hback | now apply Htrans].
Defined.

(** X4: the level of an entity holding the permissions of two entities is
    the greater of their two levels; so an entity holding at least the
    permissions of another has at least its level, and the order and the
    repetitions of the permissions do not matter. *)
Theorem findPermissionLevel_union (held more : list Permission) :
  findPermissionLevel ((held ++ more)%list)
  = Z.max (findPermissionLevel held) (findPermissionLevel more)
  /\ (forall other : list Permission,
        (forall p, In p held -> In p other) ->
        findPermissionLevel held <= findPermissionLevel other).
Proof.
  unfold findPermissionLevel, permissions, list_permissions. split.
  - rewrite map_app. apply Math_max_app.
  - intros other Hincl. apply Math_max_bounded.
    + apply Math_max_lower.
    + intros y Hy. apply in_map_iff in Hy. destruct Hy as (p & <- & Hp).
      apply Math_max_upper. apply in_map. now apply Hincl.
Qed.


(** X6: [permissionsFromStrings] depends only on which names of the catalog
    are listed: two lists of names that list the same catalog names give the
    same permissions, whatever their order, their repetitions and the
    unknown names they hold. *)
Theorem permissionsFromStrings_same_names (values : list Permission)
    (names names' : list string) :
  (forall p, In p values -> (In (name p) names <-> In (name p) names')) ->
  permissionsFromStrings values names = permissionsFromStrings values names'.
Proof.
  apply permissionsFromStrings_ext.
Qed.

(** X6, on the samples: the names in another order, one repeated, with an
    unknown name. *)
Lemma permissionsFromStrings_same_names_witness :
  permissionsFromStrings catalog_values ["ADD_USER"; "ALL"]
  = permissionsFromStrings catalog_values ["ALL"; "NOPE"; "ADD_USER"; "ALL"]
  /\ permissionsFromStrings catalog_values ["ADD_USER"; "ALL"]
     = [ALL catalog; ADD_USER catalog].
Proof.
  split; [|reflexivity].
  apply permissionsFromStrings_same_names.
  intros p Hp. simpl in Hp.
  repeat (destruct Hp as [<- | Hp]; [simpl; intuition discriminate|]).
  contradiction.
Defined.

(** X7: writing the names of permissions and reading them back.  The
    permissions read from a list of names are read back unchanged from their
    own names; and when no two entries of the catalog share a name, so are
    the entries of the catalog selected by any criterion. *)
Theorem permissionsFromStrings_round_trip (values : list Permission)
    (names : list string) :
  permissionsFromStrings values (map name (permissionsFromStrings values names))
  = permissionsFromStrings values names
  /\ (List.NoDup (map name values) ->
      forall selected : Permission -> bool,
        permissionsFromStrings values (map name (List.filter selected values))
        = List.filter selected values).
Proof.
  split.
  - apply permissionsFromStrings_ext. intros p Hp.
    rewrite in_map_iff. split.
    + intros (q & Hname & Hq). unfold permissionsFromStrings in Hq.
      apply filter_In in Hq. destruct Hq as [_ Hq].
      apply includes_name_In in Hq. now rewrite <- Hname.
    + intros Hlisted. exists p. split; [reflexivity|].
      unfold permissionsFromStrings. apply filter_In.
      split; [assumption | now apply includes_name_In].
  - intros Hunique selected. unfold permissionsFromStrings.
    apply filter_ext_in. intros p Hp.
    destruct (selected p) eqn:Hsel.
    + apply includes_name_In, in_map. apply filter_In. now split.
    + destruct (includes_name (map name (List.filter selected values)) (name p))
        eqn:Hlisted; [|reflexivity].
      apply includes_name_In, in_map_iff in Hlisted.
      destruct Hlisted as (q & Hname & Hq). apply filter_In in Hq.
      destruct Hq as [Hq Hselq].
      rewrite (unique_names_injective values q p Hunique Hq Hp Hname) in Hselq.
      congruence.
Qed.

(** X7, on the samples: the catalog has distinct names; the permissions of
    rank 2 and more come back from their names. *)
Lemma permissionsFromStrings_round_trip_witness :
  permissionsFromStrings catalog_values
    ["ALL"; "MANAGE_PERMISSIONS"; "MANAGE_EVENTS"; "MANAGE_BOOKINGS"]
  = List.filter (fun p => Z.leb 2 (level p)) catalog_values.
Proof.
  apply (proj2 (permissionsFromStrings_round_trip catalog_values [])
               ltac:(repeat constructor; simpl; intuition discriminate)
               (fun p => Z.leb 2 (level p))).
Defined.

End PermissionExtras.

(** ** Exploring the runs of a controller method *)

Module Exploration.
Import Models httpCode Effects RunProperties.

(** Answer the next awaited call: name the answer and the next world. *)
Ltac answer_call :=
  match goal with
  | |- context [run ?h (Await ?c ?k) ?w] =>
      let x := fresh "answer" in
      let w' := fresh "w" in
      let H := fresh "Hcall" in
      rewrite (run_Await h c k w);
      destruct (h c w) as [x w'] eqn:H;
      cbn [fst snd Answer] in *
  end.

(** Follow the controller through its next test. *)
Ltac branch :=
  match goal with
  | |- context [match truthy ?t with _ => _ end] =>
      let H := fresh "Htoken" in destruct (truthy t) eqn:H
  | |- context [run _ (match ?x with Resolved _ => _ | Rejected _ => _ end) _] =>
      destruct x
  | |- context [run _ (match ?x with Valid _ => _ | Invalid _ => _ end) _] =>
      let H := fresh "Hvalid" in destruct x eqn:H
  | |- context [run _ (if ?b then _ else _) _] =>
      let H := fresh "Htest" in destruct b eqn:H
  | |- context [bind (if ?b then _ else _) _] =>
      let H := fresh "Htest" in destruct b eqn:H
  | |- context [bind (match ?x with Resolved _ => _ | Rejected _ => _ end) _] =>
      destruct x
  end.

Ltac explore :=
  repeat (cbn [bind await result trace world]; first [answer_call | branch]);
  cbn [bind await result trace world run].


(** A call that is not in a trace written out. *)
Ltac absent :=
  let H := fresh in
  intros H; cbn [In] in H;
  repeat (destruct H as [H | H]; [discriminate H|]); contradiction.

End Exploration.

(** ** More on [BookingsController] *)

Module BookingsExtras.
Import Models httpCode Effects BookingsController RunProperties Exploration.

Section Bookings.
Context {World : Type}.
Variable handle : Handler (World := World).
Variable canManageBooking : JWTClaims -> string -> string -> bool.
Variable canManageEvents : JWTClaims -> string -> bool.
Variable BOOKING_VALIDATOR : gmap string JsValue -> ValidationResult BookingBody.

#[local] Abbreviation create :=
  (BookingsController.create canManageBooking canManageEvents BOOKING_VALIDATOR).
#[local] Abbreviation findOne := (BookingsController.findOne canManageBooking).
#[local] Abbreviation findUserBookings :=
  (BookingsController.findUserBookings canManageBooking).

(** X8: [findUserBookings], for a token that verifies and a list of
    bookings resolved by the bookings service, answers 200 with exactly the
    bookings of that list, in order, that the caller can manage
    ([canManageBooking] on the user of the booking and the BDE of its
    event); a booking the caller cannot manage is never returned. *)
Theorem findUserBookings_filtered (userUUID : string) (token : option string)
    (w w1 w2 : World) (t : string) (jwtClaims : JWTClaims)
    (reported : list BookingAndEvent) :
  truthy token = Some t ->
  handle (verifyToken t) w = (Resolved jwtClaims, w1) ->
  handle (bookings_findBookingsForUser userUUID) w1 = (Resolved reported, w2) ->
  exists returned,
    run handle (findUserBookings userUUID token) w
    = mkOutcome (ok (Bookings returned)) w2
        [verifyToken t; bookings_findBookingsForUser userUUID]
    /\ returned
       = List.filter
           (fun b => canManageBooking jwtClaims (be_userUUID b) (bdeUUID (be_event b)))
           reported
    /\ (forall b, In b returned
                  <-> In b reported
                      /\ canManageBooking jwtClaims (be_userUUID b)
                                          (bdeUUID (be_event b)) = true).
Proof.
  intros Htoken Hverify Hfind. eexists. split; [|split; [reflexivity|]].
  - unfold BookingsController.findUserBookings. rewrite Htoken.
    cbn [bind await].
    rewrite (run_Await_answer handle _ _ _ _ _ Hverify). cbn [bind await result trace world].
    rewrite (run_Await_answer handle _ _ _ _ _ Hfind). reflexivity.
  - intros b. apply filter_In.
Qed.

(** X9: [findOne] answers 200 only to a caller whose token verifies and
    who can manage the booking asked for ([canManageBooking] on the user of
    the path and the BDE of the event), and then with the booking the
    bookings service resolved for that user and event. *)
Theorem findOne_only_manageable (eventUUID userUUID : string)
    (token : option string) (w : World) :
  code (result (run handle (findOne eventUUID userUUID token) w)) = 200 ->
  exists t jwtClaims w1 event w2 booking w3,
    truthy token = Some t
    /\ handle (verifyToken t) w = (Resolved jwtClaims, w1)
    /\ handle (events_findByUUID eventUUID) w1 = (Resolved event, w2)
    /\ canManageBooking jwtClaims userUUID (bdeUUID event) = true
    /\ handle (bookings_findOne userUUID eventUUID) w2 = (Resolved booking, w3)
    /\ result (run handle (findOne eventUUID userUUID token) w)
       = ok (OneBooking booking).
Proof.
  unfold BookingsController.findOne. explore; try discriminate.
  intros _. apply negb_false_iff in Htest.
  repeat eexists; eauto.
Qed.

(** X10: the bookings service is asked to create a booking only for a
    caller whose token verifies, with a body that validates, for an event
    that exists and a booking the caller can manage; and then either the
    body forces the booking and the caller can manage the events of the BDE
    of the event, or it does not and the clock, read after the event was
    found, is inside the booking window. *)
Theorem bookings_create_only_authorized (eventUUID userUUID : string)
    (body : option (gmap string JsValue)) (token : option string)
    (w : World) (booking : Booking) :
  In (bookings_create booking)
     (trace (run handle (create eventUUID userUUID body token) w)) ->
  exists t jwtClaims w1 value event w2,
    truthy token = Some t
    /\ handle (verifyToken t) w = (Resolved jwtClaims, w1)
    /\ BOOKING_VALIDATOR
         (<["event" := JsString eventUUID]>
            (<["user" := JsString userUUID]> (default ∅ body))) = Valid value
    /\ booking = mkBooking (BookingsController.event value) (user value)
    /\ handle (events_findByUUID (BookingsController.event value)) w1
       = (Resolved event, w2)
    /\ canManageBooking jwtClaims (user value) (bdeUUID event) = true
    /\ (if match force value with Some forced => forced | None => false end
        then canManageEvents jwtClaims (bdeUUID event) = true
        else canBookNow_at (fst (handle DateTime_local w2)) event = true).
Proof.
  unfold BookingsController.create, canBookNow.
  destruct (truthy token) as [t|] eqn:Htoken; [|absent].
  cbn [bind await]. answer_call. destruct answer as [jwtClaims | e]; [|absent].
  cbn [result trace].
  destruct (BOOKING_VALIDATOR _) as [value | message] eqn:Hvalid; [|absent].
  cbn [bind await booking_eventUUID booking_userUUID]. answer_call.
  destruct answer as [event | e]; cbn [result trace].
  2: { destruct (is_events_error e EVENT_NOT_EXISTS); [absent|].
       cbn [bind await]. answer_call. absent. }
  destruct (canManageBooking jwtClaims (user value) (bdeUUID event)) eqn:Hbooking;
    cbn [negb]; [|absent].
  destruct (match force value with Some forced => forced | None => false end)
    eqn:Hforced; cbn [negb andb].
  - destruct (canManageEvents jwtClaims (bdeUUID event)) eqn:Hevents;
      cbn [negb]; [|absent].
    cbn [bind await]. intros Hin.
    assert (Hbooked : booking = mkBooking (BookingsController.event value) (user value)).
    { revert Hin. answer_call. intros [H | [H | [H | H]]]; try discriminate H.
      - now injection H.
      - exfalso. revert H. destruct answer as [stored | e]; [absent|].
        repeat (match goal with
                | |- context [if ?b then _ else _] => destruct b
                end; [absent|]).
        cbn [bind await]. answer_call. absent. }
    exists t, jwtClaims, w0, value, event, w1. now rewrite Hforced.
  - cbn [bind await]. rewrite run_Await.
    destruct (handle DateTime_local w1) as [now w2] eqn:Hclock. cbn [fst snd].
    destruct (canBookNow_at now event) eqn:Hopen; cbn [negb bind]; [|absent].
    cbn [bind await]. intros Hin.
    assert (Hbooked : booking = mkBooking (BookingsController.event value) (user value)).
    { revert Hin. answer_call. intros [H | [H | [H | [H | H]]]]; try discriminate H.
      - now injection H.
      - exfalso. revert H. destruct answer as [stored | e]; [absent|].
        repeat (match goal with
                | |- context [if ?b then _ else _] => destruct b
                end; [absent|]).
        cbn [bind await]. answer_call. absent. }
    exists t, jwtClaims, w0, value, event, w1. rewrite Hforced, Hclock.
    repeat split; assumption.
Qed.

(** Writing [user] and [event] over a body forgets what it said of them. *)
Lemma path_parameters_overwrite (body : gmap string JsValue)
    (u e u' e' : JsValue) :
  <["event" := e]> (<["user" := u]> (<["user" := u']> (<["event" := e']> body)))
  = <["event" := e]> (<["user" := u]> body).
Proof.
  apply map_eq. intros k.
  destruct (decide (k = "event")) as [-> | Hevent];
    [now rewrite !lookup_insert_eq|].
  rewrite lookup_insert_ne by congruence.
  rewrite (lookup_insert_ne _ "event" k) by congruence.
  destruct (decide (k = "user")) as [-> | Huser];
    [now rewrite !lookup_insert_eq|].
  now rewrite !lookup_insert_ne by congruence.
Qed.

(** X11: in [create] with a token that verifies, a body that validates and
    does not force the booking, an event that exists and [canManageBooking]
    granted, the clock decides, whatever [canManageEvents] says: outside the
    booking window the answer is 403 and the bookings service is not called;
    inside it the bookings service is asked to create the booking, and its
    booking comes back with status 201. *)
Theorem create_window (eventUUID userUUID : string)
    (body : option (gmap string JsValue)) (token : option string)
    (w w1 w2 w3 : World) (t : string) (jwtClaims : JWTClaims)
    (value : BookingBody) (found : Event) (now : DateTime) :
  truthy token = Some t ->
  handle (verifyToken t) w = (Resolved jwtClaims, w1) ->
  BOOKING_VALIDATOR
    (<["event" := JsString eventUUID]>
       (<["user" := JsString userUUID]> (default ∅ body))) = Valid value ->
  match force value with Some forced => forced | None => false end = false ->
  handle (events_findByUUID (BookingsController.event value)) w1
  = (Resolved found, w2) ->
  canManageBooking jwtClaims (user value) (bdeUUID found) = true ->
  handle DateTime_local w2 = (now, w3) ->
  let o := run handle (create eventUUID userUUID body token) w in
  let booking := mkBooking (BookingsController.event value) (user value) in
  (canBookNow_at now found = false ->
   o = mkOutcome (forbidden "It is not possible to book this event now.") w3
         [verifyToken t; events_findByUUID (BookingsController.event value);
          DateTime_local])
  /\ (canBookNow_at now found = true ->
      (exists rest,
          trace o = verifyToken t :: events_findByUUID (BookingsController.event value)
                    :: DateTime_local :: bookings_create booking :: rest)
      /\ (forall stored w4,
            handle (bookings_create booking) w3 = (Resolved stored, w4) ->
            o = mkOutcome (created (OneBooking stored)) w4
                  [verifyToken t; events_findByUUID (BookingsController.event value);
                   DateTime_local; bookings_create booking])).
Proof.
  intros Htoken Hverify Hvalid Hforce Hfound Hbooking Hclock. cbv zeta.
  unfold BookingsController.create, canBookNow. rewrite Htoken.
  cbn [bind await].
  rewrite (run_Await_answer handle _ _ _ _ _ Hverify).
  cbn [result trace world]. rewrite Hvalid.
  cbn [bind await booking_eventUUID booking_userUUID].
  rewrite (run_Await_answer handle _ _ _ _ _ Hfound).
  cbn [result trace world]. rewrite Hbooking, Hforce. cbn [negb andb bind await].
  rewrite (run_Await_answer handle _ _ _ _ _ Hclock).
  cbn [result trace world].
  split; intros Hopen; rewrite Hopen; cbn [negb bind await].
  - reflexivity.
  - rewrite run_Await. cbn [result trace world]. split; [eauto|].
    intros stored w4 Hstored. rewrite Hstored. reflexivity.
Qed.

(** X12: the [user] and [event] of a booking are those of the path: what
    the body says of them is overwritten before validation, so [create]
    does the same whatever values the body gives to [user] and [event], and
    treats a missing body as an empty one. *)
Theorem create_path_parameters_win (eventUUID userUUID : string)
    (body : gmap string JsValue) (token : option string)
    (claimed_user claimed_event : JsValue) :
  create eventUUID userUUID
    (Some (<["user" := claimed_user]> (<["event" := claimed_event]> body))) token
  = create eventUUID userUUID (Some body) token
  /\ create eventUUID userUUID None token = create eventUUID userUUID (Some ∅) token.
Proof.
  split; [|reflexivity].
  unfold BookingsController.create, default. cbn [from_option id].
  now rewrite path_parameters_overwrite.
Qed.


End Bookings.

(** X14: for an event whose two bounds are instants, [canBookNow] is open
    exactly from [bookingStart] to [bookingEnd], both included. *)
Theorem canBookNow_closed_interval (event : Event) (start end_ now : Z) :
  bookingStart event = Some (Instant start) ->
  bookingEnd event = Some (Instant end_) ->
  canBookNow_at (Instant now) event = true <-> start <= now <= end_.
Proof.
  intros Hstart Hend. unfold canBookNow_at, set_and, gt, lt.
  rewrite Hstart, Hend. cbn [valueOf].
  destruct (Z.ltb_spec now start), (Z.ltb_spec end_ now);
    cbn; split; intros Hgoal; try discriminate; try reflexivity; lia.
Qed.

(** X8, on the samples: alice lists her own booking, and gets nothing of
    bob's bookings although the service reports one. *)
Lemma findUserBookings_filtered_witness :
  result (run Samples.serve
            (BookingsController.findUserBookings Samples.canManageBooking
               "u-alice" (Some "t-alice")) Samples.world0)
  = ok (Bookings [mkBookingAndEvent "u-alice" Samples.gala])
  /\ result (run Samples.serve
               (BookingsController.findUserBookings Samples.canManageBooking
                  "u-bob" (Some "t-alice")) Samples.world0)
     = ok (Bookings []).
Proof.
  split.
  - destruct (findUserBookings_filtered Samples.serve Samples.canManageBooking
                "u-alice" (Some "t-alice")
                Samples.world0 Samples.world0 Samples.world0 "t-alice" Samples.alice
                [mkBookingAndEvent "u-alice" Samples.gala]
                eq_refl eq_refl eq_refl) as (returned & -> & -> & _).
    reflexivity.
  - destruct (findUserBookings_filtered Samples.serve Samples.canManageBooking
                "u-bob" (Some "t-alice")
                Samples.world0 Samples.world0 Samples.world0 "t-alice" Samples.alice
                [mkBookingAndEvent "u-bob" Samples.gala]
                eq_refl eq_refl eq_refl) as (returned & -> & -> & _).
    reflexivity.
Defined.


(** X9, on the samples: alice reads her own booking of the gala. *)
Lemma findOne_only_manageable_witness :
  exists booking,
    result (run Samples.serve
              (BookingsController.findOne Samples.canManageBooking
                 "e-gala" "u-alice" (Some "t-alice")) Samples.world0)
    = ok (OneBooking booking)
    /\ Samples.canManageBooking Samples.alice "u-alice" "bde-1" = true.
Proof.
  destruct (findOne_only_manageable Samples.serve Samples.canManageBooking
              "e-gala" "u-alice" (Some "t-alice") Samples.world0
              ltac:(vm_compute; reflexivity))
    as (t & jwtClaims & w1 & event & w2 & booking & w3 & _ & _ & _ & _ & _ & Hresult).
  exists booking. split; [exact Hresult | reflexivity].
Defined.

(** X10, on the samples: the staff of bde-1 forces a booking for carol. *)
Lemma bookings_create_only_authorized_witness :
  exists t jwtClaims value event,
    truthy (Some "t-staff-1") = Some t
    /\ mkBooking "e-gala" "u-carol"
       = mkBooking (BookingsController.event value) (user value)
    /\ Samples.canManageBooking jwtClaims (user value) (bdeUUID event) = true.
Proof.
  destruct (bookings_create_only_authorized Samples.serve
              Samples.canManageBooking Samples.canManageEvents
              Samples.BOOKING_VALIDATOR
              "e-gala" "u-carol" (Some {["force" := JsBoolean true]})
              (Some "t-staff-1") Samples.world0 (mkBooking "e-gala" "u-carol")
              ltac:(vm_compute; repeat first [left; reflexivity | right]))
    as (t & jwtClaims & w1 & value & event & w2 & Ht & _ & _ & Hb & _ & Hm & _).
  exists t, jwtClaims, value, event. repeat split; assumption.
Defined.

(** X11, on the samples, without force: alice booking the gala for herself
    on 2020-03-15, after the window closed, is refused; the staff of bde-1
    booking it for carol on 2020-03-05, inside the window, gets the booking
    created. *)
Lemma create_window_witness :
  let create :=
    BookingsController.create Samples.canManageBooking Samples.canManageEvents
      Samples.BOOKING_VALIDATOR in
  code (result (run Samples.serve (create "e-gala" "u-alice" None (Some "t-alice"))
                    Samples.world0)) = 403
  /\ code (result (run Samples.serve
                     (create "e-gala" "u-carol" None (Some "t-staff-1"))
                     Samples.world_open)) = 201.
Proof.
  cbv zeta. split.
  - erewrite (proj1 (create_window Samples.serve
                       Samples.canManageBooking Samples.canManageEvents
                       Samples.BOOKING_VALIDATOR
                       "e-gala" "u-alice" None (Some "t-alice")
                       Samples.world0 Samples.world0 Samples.world0 Samples.world0
                       "t-alice" Samples.alice
                       (mkBookingBody "u-alice" "e-gala" None) Samples.gala
                       (Instant (Samples.clock Samples.world0))
                       ltac:(reflexivity) ltac:(reflexivity)
                       ltac:(vm_compute; reflexivity) ltac:(reflexivity)
                       ltac:(reflexivity) ltac:(reflexivity) ltac:(reflexivity)));
      reflexivity.
  - erewrite (proj2 (proj2 (create_window Samples.serve
                       Samples.canManageBooking Samples.canManageEvents
                       Samples.BOOKING_VALIDATOR
                       "e-gala" "u-carol" None (Some "t-staff-1")
                       Samples.world_open Samples.world_open Samples.world_open
                       Samples.world_open
                       "t-staff-1" Samples.staff1
                       (mkBookingBody "u-carol" "e-gala" None) Samples.gala
                       (Instant (Samples.clock Samples.world_open))
                       ltac:(reflexivity) ltac:(reflexivity)
                       ltac:(vm_compute; reflexivity) ltac:(reflexivity)
                       ltac:(reflexivity) ltac:(reflexivity) ltac:(reflexivity))
                     ltac:(reflexivity)));
      [reflexivity | vm_compute; reflexivity].
Defined.

(** X14, on the samples: the gala can be booked at the very instant its
    window opens and at the very instant it closes, not one millisecond
    later. *)
Lemma canBookNow_closed_interval_witness :
  canBookNow_at (Instant 1583020800000) Samples.gala = true
  /\ canBookNow_at (Instant 1583625600000) Samples.gala = true
  /\ canBookNow_at (Instant 1583625600001) Samples.gala = false.
Proof.
  split; [|split].
  - apply (canBookNow_closed_interval Samples.gala 1583020800000 1583625600000
             1583020800000 eq_refl eq_refl). lia.
  - apply (canBookNow_closed_interval Samples.gala 1583020800000 1583625600000
             1583625600000 eq_refl eq_refl). lia.
  - apply not_true_iff_false. intros Hopen.
    apply (canBookNow_closed_interval Samples.gala 1583020800000 1583625600000
             1583625600001 eq_refl eq_refl) in Hopen. lia.
Defined.

End BookingsExtras.

(** ** More on [EventsController] *)

Module EventsExtras.
Import Models httpCode Effects EventsController RunProperties Exploration.

Section Events.
Context {World : Type}.
Variable handle : Handler (World := World).
Variable canManageEvents : JWTClaims -> string -> bool.
Variable EVENT_VALIDATOR :
  option (gmap string JsValue) -> ValidationResult EventBodyRequest.
Variable fromISO : string -> DateTime.

#[local] Abbreviation create :=
  (EventsController.create canManageEvents EVENT_VALIDATOR fromISO).
#[local] Abbreviation patchEvent :=
  (EventsController.patchEvent canManageEvents EVENT_VALIDATOR fromISO).
#[local] Abbreviation findOne := (EventsController.findOne canManageEvents).
#[local] Abbreviation deleteEvent := (EventsController.deleteEvent canManageEvents).
#[local] Abbreviation findAll := (EventsController.findAll canManageEvents).

(** The event a controller builds from a validated body. *)
#[local] Abbreviation built eventUUID value :=
  (EventsController.assignDates fromISO
     (mkEvent eventUUID (body_bde value) (body_name value) (body_isDraft value)
              None None None)
     value).

(** X15: [findOne] on an event that exists.  An event that is not a draft
    is answered with status 200 to anybody: the token is not even verified.
    A draft is answered with status 200 exactly to a caller whose token
    verifies and who can manage the events of its BDE, and with 401 to a
    caller without token. *)
Theorem findOne_drafts_hidden (eventUUID : string) (token : option string)
    (w w1 : World) (event : Event) :
  handle (events_findByUUID eventUUID) w = (Resolved event, w1) ->
  let o := run handle (findOne eventUUID token) w in
  (isDraft event = false ->
   o = mkOutcome (ok (OneEvent event)) w1 [events_findByUUID eventUUID])
  /\ (isDraft event = true ->
      (code (result o) = 200
       <-> exists t jwtClaims,
             truthy token = Some t
             /\ fst (handle (verifyToken t) w1) = Resolved jwtClaims
             /\ canManageEvents jwtClaims (bdeUUID event) = true)
      /\ (truthy token = None -> code (result o) = 401)).
Proof.
  intros Hfound. cbv zeta. unfold EventsController.findOne.
  cbn [bind await]. rewrite (run_Await_answer handle _ _ _ _ _ Hfound).
  cbn [result trace world].
  split; intros Hdraft; rewrite Hdraft; [reflexivity|].
  destruct (truthy token) as [t|] eqn:Htoken.
  - cbn [bind await]. rewrite run_Await. cbn [result].
    split; [|discriminate].
    destruct (fst (handle (verifyToken t) w1)) as [jwtClaims | e] eqn:Hverify.
    + destruct (canManageEvents jwtClaims (bdeUUID event)) eqn:Hmanage; cbn [negb].
      * split; [intros _; exists t, jwtClaims; auto | reflexivity].
      * split; [discriminate|].
        intros (t' & c & Ht & Hv & Hc). injection Ht as <-.
        rewrite Hverify in Hv. injection Hv as <-. congruence.
    + split; [discriminate|]. intros (t' & c & Ht & Hv & _).
      injection Ht as <-. rewrite Hverify in Hv. discriminate Hv.
  - split; [|reflexivity].
    split; [discriminate|]. intros (t' & c & [=] & _).
Qed.

(** X16: the events service is asked to delete an event only for a caller
    whose token verifies and who can manage the events of the BDE of the
    stored event, and the event deleted is the one of the path. *)
Theorem deleteEvent_only_authorized (eventUUID : string) (token : option string)
    (w : World) (deleted : string) :
  In (events_delete deleted) (trace (run handle (deleteEvent eventUUID token) w)) ->
  deleted = eventUUID
  /\ exists t jwtClaims w1 fetchedEvent w2,
      truthy token = Some t
      /\ handle (verifyToken t) w = (Resolved jwtClaims, w1)
      /\ handle (events_findByUUID eventUUID) w1 = (Resolved fetchedEvent, w2)
      /\ canManageEvents jwtClaims (bdeUUID fetchedEvent) = true.
Proof.
  unfold EventsController.deleteEvent.
  destruct (truthy token) as [t|] eqn:Htoken; [|absent].
  cbn [bind await]. answer_call. destruct answer as [jwtClaims | e]; [|absent].
  cbn [result trace bind await]. answer_call.
  destruct answer as [fetchedEvent | e]; cbn [result trace].
  2: { destruct (is_events_error e EVENT_NOT_EXISTS); [absent|].
       cbn [bind await]. answer_call. absent. }
  destruct (canManageEvents jwtClaims (bdeUUID fetchedEvent)) eqn:Hmanage;
    cbn [negb]; [|absent].
  cbn [bind await]. answer_call.
  intros [H | [H | [H | H]]]; try discriminate H.
  - injection H as <-. split; [reflexivity|].
    exists t, jwtClaims, w0, fetchedEvent, w1. auto.
  - exfalso. revert H. destruct answer as [[] | e]; [absent|].
    destruct (is_events_error e EVENT_NOT_EXISTS); [absent|].
    cbn [bind await]. answer_call. absent.
Qed.

(** X17: the events service is asked to create an event only for a caller
    whose token verifies and who can manage the events of the BDE of the
    body.  The event handed over has the uuid just generated, the [bde],
    [name] and [isDraft] of the body, for each date the instant parsed from
    the body when the body gives a non-empty one and nothing otherwise, and
    its booking dates are in order. *)
Theorem events_create_only_authorized (body : option (gmap string JsValue))
    (token : option string) (w : World) (event : Event) :
  In (events_create event) (trace (run handle (create body token) w)) ->
  exists t jwtClaims w1 value fresh w2,
    truthy token = Some t
    /\ handle (verifyToken t) w = (Resolved jwtClaims, w1)
    /\ EVENT_VALIDATOR body = Valid value
    /\ handle uuid_v4 w1 = (fresh, w2)
    /\ event
       = mkEvent fresh (body_bde value) (body_name value) (body_isDraft value)
           (option_map fromISO (truthy (body_bookingStart value)))
           (option_map fromISO (truthy (body_bookingEnd value)))
           (option_map fromISO (truthy (body_eventDate value)))
    /\ areBookingDatesWellOrdered event = true
    /\ canManageEvents jwtClaims (bdeUUID event) = true.
Proof.
  unfold EventsController.create.
  destruct (truthy token) as [t|] eqn:Htoken; [|absent].
  cbn [bind await]. answer_call. destruct answer as [jwtClaims | e]; [|absent].
  cbn [result trace].
  destruct (EVENT_VALIDATOR body) as [value | message] eqn:Hvalid; [|absent].
  cbn [bind await]. answer_call. cbn [result trace].
  rename answer into fresh.
  assert (Hbuilt :
    built fresh value
    = mkEvent fresh (body_bde value) (body_name value) (body_isDraft value)
        (option_map fromISO (truthy (body_bookingStart value)))
        (option_map fromISO (truthy (body_bookingEnd value)))
        (option_map fromISO (truthy (body_eventDate value)))).
  { unfold EventsController.assignDates, assignDate. cbn.
    destruct (truthy (body_bookingStart value)),
             (truthy (body_bookingEnd value)),
             (truthy (body_eventDate value)); reflexivity. }
  rewrite Hbuilt. clear Hbuilt.
  destruct (areBookingDatesWellOrdered _) eqn:Hordered; cbn [negb]; [|absent].
  destruct (canManageEvents jwtClaims (body_bde value)) eqn:Hmanage;
    cbn [negb]; [|absent].
  cbn [bind await]. answer_call.
  intros [H | [H | [H | H]]]; try discriminate H.
  - injection H as <-.
    exists t, jwtClaims, w0, value, fresh, w1. repeat split; assumption.
  - exfalso. revert H. destruct answer as [stored | e]; [absent|].
    destruct (is_events_error e BDE_UUID_NOT_EXISTS); [absent|].
    cbn [bind await]. answer_call. absent.
Qed.

(** X18: the events service is asked to update an event only for a caller
    whose token verifies and who can manage the events of the BDE of the
    stored event and, when the body names another BDE, of that BDE too.  The
    event handed over has the uuid of the path, whatever the body says, the
    [bde], [name] and [isDraft] of the body, and booking dates in order. *)
Theorem patchEvent_only_authorized (eventUUID : string)
    (body : option (gmap string JsValue)) (token : option string)
    (w : World) (event : Event) :
  In (events_update event)
     (trace (run handle (patchEvent eventUUID body token) w)) ->
  exists t jwtClaims w1 value fetchedEvent w2,
    truthy token = Some t
    /\ handle (verifyToken t) w = (Resolved jwtClaims, w1)
    /\ EVENT_VALIDATOR body = Valid value
    /\ handle (events_findByUUID eventUUID) w1 = (Resolved fetchedEvent, w2)
    /\ event = built eventUUID value
    /\ Models.eventUUID event = eventUUID
    /\ bdeUUID event = body_bde value
    /\ areBookingDatesWellOrdered event = true
    /\ canManageEvents jwtClaims (bdeUUID fetchedEvent) = true
    /\ (bdeUUID event <> bdeUUID fetchedEvent ->
        canManageEvents jwtClaims (bdeUUID event) = true).
Proof.
  unfold EventsController.patchEvent.
  destruct (truthy token) as [t|] eqn:Htoken; [|absent].
  cbn [bind await]. answer_call. destruct answer as [jwtClaims | e]; [|absent].
  cbn [result trace].
  destruct (EVENT_VALIDATOR body) as [value | message] eqn:Hvalid; [|absent].
  set (patched := built eventUUID value).
  destruct (areBookingDatesWellOrdered patched) eqn:Hordered; cbn [negb]; [|absent].
  change (Models.eventUUID patched) with eventUUID.
  change (bdeUUID patched) with (body_bde value).
  cbn [bind await]. answer_call.
  destruct answer as [fetchedEvent | e]; cbn [result trace].
  2: { destruct (is_events_error e EVENT_NOT_EXISTS); [absent|].
       cbn [bind await]. answer_call. absent. }
  destruct (negb (String.eqb (body_bde value) (bdeUUID fetchedEvent))
            && negb (canManageEvents jwtClaims (body_bde value))) eqn:Hnew; [absent|].
  destruct (canManageEvents jwtClaims (bdeUUID fetchedEvent)) eqn:Hold;
    cbn [negb]; [|absent].
  cbn [bind await]. answer_call.
  intros [H | [H | [H | H]]]; try discriminate H.
  - injection H as <-.
    exists t, jwtClaims, w0, value, fetchedEvent, w1.
    repeat split; try assumption; try reflexivity.
    change (bdeUUID patched) with (body_bde value). intros Hmoved.
    apply String.eqb_neq in Hmoved. rewrite Hmoved in Hnew. cbn [negb andb] in Hnew.
    now apply negb_false_iff in Hnew.
  - exfalso. revert H. destruct answer as [stored | e]; [absent|].
    destruct (is_events_error e EVENT_NOT_EXISTS); [absent|].
    destruct (is_events_error e BDE_UUID_NOT_EXISTS); [absent|].
    cbn [bind await]. answer_call. absent.
Qed.

(** X19: [patchEvent] checks the order of the booking dates before it looks
    for the stored event: with a token that verifies and a body that
    validates and gives two booking dates of which the first is not strictly
    before the second, the answer is 400 and the events service is not
    called at all, whether the event exists or not and whoever the caller
    is. *)
Theorem patchEvent_dates_before_fetch (eventUUID : string)
    (body : option (gmap string JsValue)) (token : option string)
    (w w1 : World) (t : string) (jwtClaims : JWTClaims)
    (value : EventBodyRequest) (iso_start iso_end : string) :
  truthy token = Some t ->
  handle (verifyToken t) w = (Resolved jwtClaims, w1) ->
  EVENT_VALIDATOR body = Valid value ->
  truthy (body_bookingStart value) = Some iso_start ->
  truthy (body_bookingEnd value) = Some iso_end ->
  lt (fromISO iso_start) (fromISO iso_end) = false ->
  run handle (patchEvent eventUUID body token) w
  = mkOutcome
      (badRequest "bookingEnd date must come (strictly) after bookingStart date.")
      w1 [verifyToken t].
Proof.
  intros Htoken Hverify Hvalid Hstart Hend Horder.
  unfold EventsController.patchEvent. rewrite Htoken.
  cbn [bind await]. rewrite (run_Await_answer handle _ _ _ _ _ Hverify).
  cbn [result trace world]. rewrite Hvalid.
  unfold areBookingDatesWellOrdered, EventsController.assignDates, assignDate.
  cbn [bookingStart bookingEnd]. rewrite Hstart, Hend, Horder. reflexivity.
Qed.


(** X21: [findAll] never refuses a caller.  When the events service
    resolves, a caller without token, with an empty token or with a token
    that does not verify gets status 200 and the events of the list that are
    not drafts, like an anonymous caller. *)
Theorem findAll_anonymous (token : option string) (w w1 : World)
    (events : list Event) :
  handle events_findAll w = (Resolved events, w1) ->
  (truthy token = None
   \/ exists t e, truthy token = Some t
                  /\ fst (handle (verifyToken t) w1) = Rejected e) ->
  result (run handle (findAll token) w)
  = ok (Events (List.filter (fun event => negb (isDraft event)) events))
  /\ result (run handle (findAll token) w) = result (run handle (findAll None) w).
Proof.
  intros Hall Hanonymous.
  assert (Hpublic : forall l,
             List.filter (visible canManageEvents None) l
             = List.filter (fun event => negb (isDraft event)) l).
  { intros l. apply filter_ext. intros event. unfold visible.
    now rewrite orb_false_r. }
  unfold EventsController.findAll. cbn [bind await truthy].
  rewrite !(run_Await_answer handle _ _ _ _ _ Hall). cbn [result bind].
  destruct Hanonymous as [-> | (t & e & -> & Hrejected)].
  - cbn [bind result run]. now rewrite Hpublic.
  - cbn [bind await]. rewrite run_Await. rewrite Hrejected.
    cbn [bind result run]. now rewrite Hpublic.
Qed.

End Events.


(** X15, on the samples: the gala is public; the draft of bde-1 is shown to
    the staff of bde-1, and the draft of bde-2 is not. *)
Lemma findOne_drafts_hidden_witness :
  let findOne := EventsController.findOne Samples.canManageEvents in
  result (run Samples.serve (findOne "e-gala" None) Samples.world0)
  = ok (OneEvent Samples.gala)
  /\ code (result (run Samples.serve (findOne "e-draft-1" (Some "t-staff-1"))
                     Samples.world0)) = 200
  /\ code (result (run Samples.serve (findOne "e-draft-2" None)
                     Samples.world0)) = 401.
Proof.
  cbv zeta. split; [|split].
  - rewrite (proj1 (findOne_drafts_hidden Samples.serve Samples.canManageEvents
                      "e-gala" None Samples.world0 Samples.world0 Samples.gala
                      eq_refl) eq_refl).
    reflexivity.
  - apply (proj2 (findOne_drafts_hidden Samples.serve Samples.canManageEvents
                    "e-draft-1" (Some "t-staff-1") Samples.world0 Samples.world0
                    Samples.draft1 eq_refl) eq_refl).
    exists "t-staff-1", Samples.staff1. repeat split; reflexivity.
  - apply (proj2 (findOne_drafts_hidden Samples.serve Samples.canManageEvents
                    "e-draft-2" None Samples.world0 Samples.world0
                    Samples.draft2 eq_refl) eq_refl).
    reflexivity.
Defined.

(** X16, on the samples: the staff of bde-1 deletes the gala. *)
Lemma deleteEvent_only_authorized_witness :
  exists jwtClaims fetchedEvent,
    Samples.serve (verifyToken "t-staff-1") Samples.world0
    = (Resolved jwtClaims, Samples.world0)
    /\ Samples.canManageEvents jwtClaims (bdeUUID fetchedEvent) = true.
Proof.
  destruct (deleteEvent_only_authorized Samples.serve Samples.canManageEvents
              "e-gala" (Some "t-staff-1") Samples.world0 "e-gala"
              ltac:(vm_compute; repeat first [left; reflexivity | right]))
    as (_ & t & jwtClaims & w1 & fetchedEvent & w2 & Ht & Hv & _ & Hm).
  injection Ht as <-.
  exists jwtClaims, fetchedEvent. split; [|exact Hm].
  rewrite Hv. f_equal.
  assert (Hw : snd (Samples.serve (verifyToken "t-staff-1") Samples.world0)
               = Samples.world0) by reflexivity.
  rewrite Hv in Hw. now symmetry.
Defined.

(** X17, on the samples: the staff of bde-1 creates an event of bde-1 with
    a booking window in order. *)
Lemma events_create_only_authorized_witness :
  exists jwtClaims event,
    bdeUUID event = "bde-1"
    /\ areBookingDatesWellOrdered event = true
    /\ Samples.canManageEvents jwtClaims (bdeUUID event) = true.
Proof.
  destruct (events_create_only_authorized Samples.serve Samples.canManageEvents
              Samples.EVENT_VALIDATOR Samples.fromISO
              (Some (Samples.ordered_body "bde-1")) (Some "t-staff-1") Samples.world0
              (mkEvent "00000000-0000-4000-8000-000000000000" "bde-1" "Gala" false
                       (Some (Instant 1583020800000)) (Some (Instant 1583625600000))
                       None)
              ltac:(vm_compute; repeat first [left; reflexivity | right]))
    as (t & jwtClaims & w1 & value & fresh & w2 & _ & _ & _ & _ & _ & Ho & Hm).
  exists jwtClaims,
    (mkEvent "00000000-0000-4000-8000-000000000000" "bde-1" "Gala" false
             (Some (Instant 1583020800000)) (Some (Instant 1583625600000)) None).
  split; [reflexivity|]. split; [exact Ho | exact Hm].
Defined.

(** X18, on the samples: the staff of bde-1 patches the gala, which stays
    in bde-1. *)
Lemma patchEvent_only_authorized_witness :
  exists jwtClaims event fetchedEvent,
    Models.eventUUID event = "e-gala"
    /\ Samples.canManageEvents jwtClaims (bdeUUID fetchedEvent) = true.
Proof.
  destruct (patchEvent_only_authorized Samples.serve Samples.canManageEvents
              Samples.EVENT_VALIDATOR Samples.fromISO
              "e-gala" (Some (Samples.ordered_body "bde-1")) (Some "t-staff-1")
              Samples.world0
              (mkEvent "e-gala" "bde-1" "Gala" false
                       (Some (Instant 1583020800000)) (Some (Instant 1583625600000))
                       None)
              ltac:(vm_compute; repeat first [left; reflexivity | right]))
    as (t & jwtClaims & w1 & value & fetchedEvent & w2
        & _ & _ & _ & _ & _ & Hid & _ & _ & Hm & _).
  exists jwtClaims,
    (mkEvent "e-gala" "bde-1" "Gala" false
             (Some (Instant 1583020800000)) (Some (Instant 1583625600000)) None),
    fetchedEvent.
  split; [exact Hid | exact Hm].
Defined.

(** X19, on the samples: the staff of bde-1 patches an event that does not
    exist with a booking window that ends before it starts, and is told
    about the dates, not about the event. *)
Lemma patchEvent_dates_before_fetch_witness :
  Samples.find_event "e-nowhere" Samples.world0 = None
  /\ run Samples.serve
       (EventsController.patchEvent Samples.canManageEvents Samples.EVENT_VALIDATOR
          Samples.fromISO "e-nowhere" (Some Samples.backwards_body) (Some "t-staff-1"))
       Samples.world0
     = mkOutcome
         (badRequest "bookingEnd date must come (strictly) after bookingStart date.")
         Samples.world0 [verifyToken "t-staff-1"].
Proof.
  split; [reflexivity|].
  eapply (patchEvent_dates_before_fetch Samples.serve Samples.canManageEvents
            Samples.EVENT_VALIDATOR Samples.fromISO
            "e-nowhere" (Some Samples.backwards_body) (Some "t-staff-1")
            Samples.world0 Samples.world0 "t-staff-1" Samples.staff1);
    vm_compute; reflexivity.
Defined.

(** X21, on the samples: a token that does not verify lists the gala only. *)
Lemma findAll_anonymous_witness :
  result (run Samples.serve
            (EventsController.findAll Samples.canManageEvents (Some "t-forged"))
            Samples.world0)
  = ok (Events [Samples.gala]).
Proof.
  rewrite (proj1 (findAll_anonymous Samples.serve Samples.canManageEvents
                    (Some "t-forged") Samples.world0 Samples.world0
                    (Samples.events Samples.world0) eq_refl
                    (or_intror (ex_intro _ "t-forged"
                       (ex_intro _ (OtherError "invalid token")
                          (conj eq_refl eq_refl)))))).
  reflexivity.
Defined.

End EventsExtras.

(** ** Authentication and validation come first *)

Module GateExtras.
Import Models httpCode Effects RunProperties Exploration.

Section Gates.
Context {World : Type}.
Variable handle : Handler (World := World).
Variable canManageBooking : JWTClaims -> string -> string -> bool.
Variable canManageEvents : JWTClaims -> string -> bool.
Variable BOOKING_VALIDATOR :
  gmap string JsValue -> ValidationResult BookingsController.BookingBody.
Variable EVENT_VALIDATOR :
  option (gmap string JsValue) -> ValidationResult EventsController.EventBodyRequest.
Variable fromISO : string -> DateTime.

#[local] Abbreviation book :=
  (BookingsController.create canManageBooking canManageEvents BOOKING_VALIDATOR).
#[local] Abbreviation create_event :=
  (EventsController.create canManageEvents EVENT_VALIDATOR fromISO).
#[local] Abbreviation patchEvent :=
  (EventsController.patchEvent canManageEvents EVENT_VALIDATOR fromISO).

(** X22: without a token, or with an empty one, every method of the two
    controllers except [findOne] and [findAll] of the events answers 401
    without calling any collaborator, whatever the body and the path are. *)
Theorem token_required (eventUUID userUUID : string)
    (body : option (gmap string JsValue)) (token : option string) (w : World) :
  truthy token = None ->
  run handle (book eventUUID userUUID body token) w
  = mkOutcome (unauthorized "You must authenticate.") w []
  /\ run handle (BookingsController.findOne canManageBooking eventUUID userUUID token) w
     = mkOutcome (unauthorized "You must authenticate.") w []
  /\ run handle (BookingsController.findUserBookings canManageBooking userUUID token) w
     = mkOutcome (unauthorized "You must authenticate.") w []
  /\ run handle (BookingsController.findEventBookings eventUUID token) w
     = mkOutcome (unauthorized "You must authenticate.") w []
  /\ run handle (create_event body token) w
     = mkOutcome (unauthorized "You must be connected.") w []
  /\ run handle (patchEvent eventUUID body token) w
     = mkOutcome (unauthorized "You must be connected.") w []
  /\ run handle (EventsController.deleteEvent canManageEvents eventUUID token) w
     = mkOutcome (unauthorized "You must be connected.") w [].
Proof.
  intros Htoken.
  unfold BookingsController.create, BookingsController.findOne,
    BookingsController.findUserBookings, BookingsController.findEventBookings,
    EventsController.create, EventsController.patchEvent,
    EventsController.deleteEvent.
  rewrite Htoken. repeat split; reflexivity.
Qed.

(** X23: with a token that does not verify, the same methods answer 401
    after that single call: no service is asked anything and the body is
    not validated. *)
Theorem token_verified_first (eventUUID userUUID : string)
    (body : option (gmap string JsValue)) (token : option string)
    (w w1 : World) (t : string) (e : Thrown) :
  truthy token = Some t ->
  handle (verifyToken t) w = (Rejected e, w1) ->
  let refused :=
    mkOutcome (unauthorized "The given token is invalid.") w1 [verifyToken t] in
  run handle (book eventUUID userUUID body token) w = refused
  /\ run handle (BookingsController.findOne canManageBooking eventUUID userUUID token) w
     = refused
  /\ run handle (BookingsController.findUserBookings canManageBooking userUUID token) w
     = refused
  /\ run handle (BookingsController.findEventBookings eventUUID token) w = refused
  /\ run handle (create_event body token) w = refused
  /\ run handle (patchEvent eventUUID body token) w = refused
  /\ run handle (EventsController.deleteEvent canManageEvents eventUUID token) w
     = refused.
Proof.
  intros Htoken Hverify. cbv zeta.
  unfold BookingsController.create, BookingsController.findOne,
    BookingsController.findUserBookings, BookingsController.findEventBookings,
    EventsController.create, EventsController.patchEvent,
    EventsController.deleteEvent.
  rewrite Htoken. cbn [bind await].
  rewrite !(run_Await_answer handle _ _ _ _ _ Hverify).
  repeat split; reflexivity.
Qed.

(** X24: with a token that verifies and a body the validator refuses, the
    methods that take a body answer 400 with the message of the validator;
    nothing is fetched, generated or stored, and no permission is looked
    at. *)
Theorem body_validated_before_services (eventUUID userUUID : string)
    (body : option (gmap string JsValue)) (token : option string)
    (w w1 : World) (t : string) (jwtClaims : JWTClaims) (message : string) :
  truthy token = Some t ->
  handle (verifyToken t) w = (Resolved jwtClaims, w1) ->
  (BOOKING_VALIDATOR
     (<["event" := JsString eventUUID]>
        (<["user" := JsString userUUID]> (default ∅ body))) = Invalid message ->
   run handle (book eventUUID userUUID body token) w
   = mkOutcome (badRequest message) w1 [verifyToken t])
  /\ (EVENT_VALIDATOR body = Invalid message ->
      run handle (create_event body token) w
      = mkOutcome (badRequest message) w1 [verifyToken t]
      /\ run handle (patchEvent eventUUID body token) w
         = mkOutcome (badRequest message) w1 [verifyToken t]).
Proof.
  intros Htoken Hverify.
  unfold BookingsController.create, EventsController.create,
    EventsController.patchEvent.
  rewrite Htoken. cbn [bind await].
  rewrite !(run_Await_answer handle _ _ _ _ _ Hverify). cbn [result trace world].
  split; intros ->; repeat split; reflexivity.
Qed.

(** X25: an event that does not exist is reported before any permission
    is looked at.  When the events service rejects the lookup with
    [EVENT_NOT_EXISTS], an authenticated caller gets 404 from [findOne] of
    the bookings and from [deleteEvent], whatever [canManageBooking] and
    [canManageEvents] say, and anybody gets 404 from [findOne] of the
    events; nothing is logged and nothing else is called. *)
Theorem missing_event_before_permission (eventUUID userUUID : string)
    (token : option string) (w w1 w2 : World) (t : string)
    (jwtClaims : JWTClaims) (e : Thrown) :
  is_events_error e EVENT_NOT_EXISTS = true ->
  (truthy token = Some t ->
   handle (verifyToken t) w = (Resolved jwtClaims, w1) ->
   handle (events_findByUUID eventUUID) w1 = (Rejected e, w2) ->
   run handle (BookingsController.findOne canManageBooking eventUUID userUUID token) w
   = mkOutcome (notFound "Event does not exists.") w2
       [verifyToken t; events_findByUUID eventUUID]
   /\ run handle (EventsController.deleteEvent canManageEvents eventUUID token) w
      = mkOutcome (notFound ("No event with uuid " ++ eventUUID ++ " exists.")) w2
          [verifyToken t; events_findByUUID eventUUID])
  /\ (handle (events_findByUUID eventUUID) w = (Rejected e, w1) ->
      run handle (EventsController.findOne canManageEvents eventUUID token) w
      = mkOutcome (notFound "Not found") w1 [events_findByUUID eventUUID]).
Proof.
  intros Hmissing. split.
  - intros Htoken Hverify Hfind.
    unfold BookingsController.findOne, EventsController.deleteEvent.
    rewrite Htoken. cbn [bind await].
    rewrite !(run_Await_answer handle _ _ _ _ _ Hverify).
    cbn [bind await result trace world].
    rewrite !(run_Await_answer handle _ _ _ _ _ Hfind).
    rewrite Hmissing. split; reflexivity.
  - intros Hfind. unfold EventsController.findOne. cbn [bind await].
    rewrite (run_Await_answer handle _ _ _ _ _ Hfind).
    rewrite Hmissing. reflexivity.
Qed.

End Gates.

(** X25, on the samples: alice, who manages no event, learns that an event
    does not exist when she tries to delete it. *)
Lemma missing_event_before_permission_witness :
  Samples.canManageEvents Samples.alice "bde-1" = false
  /\ code (result (run Samples.serve
                     (EventsController.deleteEvent Samples.canManageEvents
                        "e-nowhere" (Some "t-alice"))
                     Samples.world0)) = 404.
Proof.
  split; [reflexivity|].
  destruct (missing_event_before_permission Samples.serve
              Samples.canManageBooking Samples.canManageEvents
              "e-nowhere" "u-alice" (Some "t-alice")
              Samples.world0 Samples.world0 Samples.world0 "t-alice" Samples.alice
              (EventsServiceError EVENT_NOT_EXISTS) eq_refl) as [Hauth _].
  destruct (Hauth eq_refl eq_refl eq_refl) as [_ Hdelete].
  rewrite Hdelete. reflexivity.
Defined.

(** X22, on the samples: an empty token is no token. *)
Lemma token_required_witness :
  code (result (run Samples.serve
                  (BookingsController.findEventBookings "e-gala" (Some ""))
                  Samples.world0)) = 401
  /\ code (result (run Samples.serve
                     (EventsController.deleteEvent Samples.canManageEvents "e-gala" None)
                     Samples.world0)) = 401.
Proof.
  destruct (token_required Samples.serve Samples.canManageBooking
              Samples.canManageEvents Samples.BOOKING_VALIDATOR
              Samples.EVENT_VALIDATOR Samples.fromISO
              "e-gala" "u-alice" None (Some "") Samples.world0 eq_refl)
    as (_ & _ & _ & Hlist & _).
  destruct (token_required Samples.serve Samples.canManageBooking
              Samples.canManageEvents Samples.BOOKING_VALIDATOR
              Samples.EVENT_VALIDATOR Samples.fromISO
              "e-gala" "u-alice" None None Samples.world0 eq_refl)
    as (_ & _ & _ & _ & _ & _ & Hdelete).
  rewrite Hlist, Hdelete. split; reflexivity.
Defined.

(** X23, on the samples: a forged token deletes nothing. *)
Lemma token_verified_first_witness :
  run Samples.serve
    (EventsController.deleteEvent Samples.canManageEvents "e-gala" (Some "t-forged"))
    Samples.world0
  = mkOutcome (unauthorized "The given token is invalid.") Samples.world0
      [verifyToken "t-forged"].
Proof.
  apply (token_verified_first Samples.serve Samples.canManageBooking
           Samples.canManageEvents Samples.BOOKING_VALIDATOR
           Samples.EVENT_VALIDATOR Samples.fromISO
           "e-gala" "u-alice" None (Some "t-forged")
           Samples.world0 Samples.world0 "t-forged" (OtherError "invalid token")
           eq_refl eq_refl).
Defined.

(** X24, on the samples: the staff of bde-1 creating an event without body,
    and booking for a user whose uuid has 37 characters. *)
Lemma body_validated_before_services_witness :
  run Samples.serve
    (EventsController.create Samples.canManageEvents Samples.EVENT_VALIDATOR
       Samples.fromISO None (Some "t-staff-1"))
    Samples.world0
  = mkOutcome (badRequest "a body is required") Samples.world0
      [verifyToken "t-staff-1"]
  /\ code (result (run Samples.serve
                     (BookingsController.create Samples.canManageBooking
                        Samples.canManageEvents Samples.BOOKING_VALIDATOR
                        "e-gala" "u-0123456789012345678901234567890123456" None
                        (Some "t-staff-1"))
                     Samples.world0)) = 400.
Proof.
  split.
  - apply (proj2 (body_validated_before_services Samples.serve
                    Samples.canManageBooking Samples.canManageEvents
                    Samples.BOOKING_VALIDATOR Samples.EVENT_VALIDATOR Samples.fromISO
                    "e-gala" "u-alice" None (Some "t-staff-1")
                    Samples.world0 Samples.world0 "t-staff-1" Samples.staff1
                    "a body is required" eq_refl eq_refl) eq_refl).
  - erewrite (proj1 (body_validated_before_services Samples.serve
                       Samples.canManageBooking Samples.canManageEvents
                       Samples.BOOKING_VALIDATOR Samples.EVENT_VALIDATOR Samples.fromISO
                       "e-gala" "u-0123456789012345678901234567890123456" None
                       (Some "t-staff-1")
                       Samples.world0 Samples.world0 "t-staff-1" Samples.staff1
                       "user and event must have 1 to 36 characters" eq_refl eq_refl));
      [reflexivity | vm_compute; reflexivity].
Defined.

End GateExtras.
